(** * Transformer encoder: forward computation and construction checks

    A shallow embedding of the classes of [transformer_exploration.ipynb]
    ([PositionalEncoding], [ScaledDotProductAttention], [MultiHeadAttention],
    [PositionWiseFeedForwardNetwork], [EncoderLayer], [TransformerEncoder])
    and of the few [torch] primitives they call.

    Conventions.
    - Tensor elements are real numbers: [float32] arithmetic is idealised,
      so every equation below is an equation of the exact values.  The
      reals have no NaN: a statement about the values of attention assumes
      a key dimension that is not zero, since the scores are divided by
      its square root.
    - A tensor is its shape together with an indexing function; only the
      entries inside the shape are meaningful, and [teq] compares two
      tensors on those.
    - Sizes and counts (the [int] arguments of the constructors, which all
      end up as tensor dimensions or as [range] bounds) are natural numbers.
    - A Python exception is a value [Raise e] of the [result] type. *)

From Stdlib Require Import Reals Lra Lia List Arith Bool String.
Import ListNotations.

(* ================================================================== *)
(** ** Exceptions and the error monad *)

Inductive exception : Type :=
| AssertionError (msg : string)
| ZeroDivisionError
| IndexError
| RuntimeError.

Inductive result (A : Type) : Type :=
| Ok (a : A)
| Raise (e : exception).

Arguments Ok {A} a.
Arguments Raise {A} e.

Definition bind {A B : Type} (c : result A) (k : A -> result B) : result B :=
  match c with
  | Ok a => k a
  | Raise e => Raise e
  end.

Declare Scope result_scope.
Delimit Scope result_scope with result.
Notation "x <- c ;; k" := (bind c (fun x => k))
  (at level 61, c at next level, right associativity) : result_scope.

Definition is_ok {A : Type} (c : result A) : bool :=
  match c with Ok _ => true | Raise _ => false end.

(** [assert cond, msg] *)
Definition py_assert (cond : bool) (msg : string) : result unit :=
  if cond then Ok tt else Raise (AssertionError msg).

(** A list comprehension whose body may raise: elements are evaluated from
    left to right and the first exception aborts the comprehension. *)
Fixpoint mapM {A B : Type} (f : A -> result B) (l : list A) : result (list B) :=
  match l with
  | [] => Ok []
  | a :: l' =>
      match f a with
      | Ok b => match mapM f l' with
                | Ok bs => Ok (b :: bs)
                | Raise e => Raise e
                end
      | Raise e => Raise e
      end
  end.

(** [enumerate(l)] *)
Definition enumerate {A : Type} (l : list A) : list (nat * A) :=
  combine (seq 0 (List.length l)) l.

(** [l[i]] for a non-negative index. *)
Definition getitem {A : Type} (l : list A) (i : nat) : result A :=
  match nth_error l i with
  | Some a => Ok a
  | None => Raise IndexError
  end.

(* ================================================================== *)
(** ** Tensors *)

Open Scope R_scope.

(** Sum of [f 0 .. f (n-1)]. *)
Fixpoint Rsum (n : nat) (f : nat -> R) : R :=
  match n with
  | O => 0
  | S n' => Rsum n' f + f n'
  end.

Record Tensor1 : Type := { len1 : nat; get1 : nat -> R }.
Record Tensor2 : Type := { rows2 : nat; cols2 : nat; get2 : nat -> nat -> R }.
Record Tensor3 : Type :=
  { dim0 : nat; dim1 : nat; dim2 : nat; get3 : nat -> nat -> nat -> R }.

Definition shape (t : Tensor3) : nat * nat * nat := (dim0 t, dim1 t, dim2 t).

(** Equality of two tensors as [torch.equal] sees it: same shape, same
    entries inside the shape. *)
Definition teq (s t : Tensor3) : Prop :=
  shape s = shape t /\
  forall b i k, (b < dim0 s)%nat -> (i < dim1 s)%nat -> (k < dim2 s)%nat ->
                get3 s b i k = get3 t b i k.

(** Size of one axis of the result of a broadcast, when the two sizes are
    compatible: equal, or one of them is 1. *)
Definition broadcast_dim (m n : nat) : option nat :=
  if (m =? n)%nat then Some m
  else if (m =? 1)%nat then Some n
  else if (n =? 1)%nat then Some m
  else None.

(** Index read on an axis of size [m] of an operand being broadcast. *)
Definition bidx (m i : nat) : nat := if (m =? 1)%nat then O else i.

(** The tensor operations of torch that the notebook calls.  An operation
    that torch rejects for the shapes of its arguments raises
    [RuntimeError]. *)
Module torch.

(** [torch.arange(start=0, end=n)] *)
Definition arange (n : nat) : Tensor1 :=
  {| len1 := n; get1 := fun i => INR i |}.

(** [torch.arange(start=0, end=n, step=2)]: 0, 2, 4, ... below [n]. *)
Definition arange_step2 (n : nat) : Tensor1 :=
  {| len1 := Nat.div2 (n + 1); get1 := fun i => INR (2 * i) |}.

(** [t.unsqueeze(1)] on a vector: shape (n) becomes (n, 1). *)
Definition unsqueeze1 (t : Tensor1) : Tensor2 :=
  {| rows2 := len1 t; cols2 := 1; get2 := fun p _ => get1 t p |}.

(** [t * c] for a Python float [c]. *)
Definition mul_scalar1 (t : Tensor1) (c : R) : Tensor1 :=
  {| len1 := len1 t; get1 := fun i => get1 t i * c |}.

Definition map1 (f : R -> R) (t : Tensor1) : Tensor1 :=
  {| len1 := len1 t; get1 := fun i => f (get1 t i) |}.

Definition map2 (f : R -> R) (t : Tensor2) : Tensor2 :=
  {| rows2 := rows2 t; cols2 := cols2 t; get2 := fun p c => f (get2 t p c) |}.

Definition map3 (f : R -> R) (t : Tensor3) : Tensor3 :=
  {| dim0 := dim0 t; dim1 := dim1 t; dim2 := dim2 t;
     get3 := fun b i k => f (get3 t b i k) |}.

(** [a * v] for a matrix [a] and a vector [v], with broadcasting: the
    vector is aligned with the last axis of the matrix. *)
Definition mul_2_1 (a : Tensor2) (v : Tensor1) : result Tensor2 :=
  match broadcast_dim (cols2 a) (len1 v) with
  | Some c =>
      Ok {| rows2 := rows2 a; cols2 := c;
            get2 := fun p j =>
              get2 a p (bidx (cols2 a) j) * get1 v (bidx (len1 v) j) |}
  | None => Raise RuntimeError
  end.

(** [torch.zeros(d0, d1, d2)] *)
Definition zeros (d0 d1 d2 : nat) : Tensor3 :=
  {| dim0 := d0; dim1 := d1; dim2 := d2; get3 := fun _ _ _ => 0 |}.

(** Number of columns selected by the slice [start::2] of an axis of
    size [n]. *)
Definition stride2_count (start n : nat) : nat := Nat.div2 (n - start + 1).

(** [t[0, :, start::2] = src] for [start] 0 or 1.  The selected view has
    shape (dim1 t, stride2_count start (dim2 t)); [src] must broadcast to
    that shape (an axis of [src] is either of the view's size or 1). *)
Definition setitem_0_all_stride2 (t : Tensor3) (start : nat) (src : Tensor2)
  : result Tensor3 :=
  let n := stride2_count start (dim2 t) in
  if (dim0 t =? 0)%nat then Raise IndexError
  else if (((rows2 src =? dim1 t) || (rows2 src =? 1)) &&
           ((cols2 src =? n) || (cols2 src =? 1)))%nat%bool
  then Ok {| dim0 := dim0 t; dim1 := dim1 t; dim2 := dim2 t;
             get3 := fun b i k =>
               if ((b =? 0) && (start <=? k) &&
                   Nat.even (k - start))%nat%bool
               then get2 src (bidx (rows2 src) i)
                             (bidx (cols2 src) (Nat.div2 (k - start)))
               else get3 t b i k |}
  else Raise RuntimeError.

(** [t[:, :n, :]]: Python clamps the bound of a slice to the axis. *)
Definition slice_dim1 (t : Tensor3) (n : nat) : Tensor3 :=
  {| dim0 := dim0 t; dim1 := Nat.min n (dim1 t); dim2 := dim2 t;
     get3 := get3 t |}.

(** [x + y] with broadcasting. *)
Definition add (x y : Tensor3) : result Tensor3 :=
  match broadcast_dim (dim0 x) (dim0 y),
        broadcast_dim (dim1 x) (dim1 y),
        broadcast_dim (dim2 x) (dim2 y) with
  | Some d0, Some d1, Some d2 =>
      Ok {| dim0 := d0; dim1 := d1; dim2 := d2;
            get3 := fun b i k =>
              get3 x (bidx (dim0 x) b) (bidx (dim1 x) i) (bidx (dim2 x) k) +
              get3 y (bidx (dim0 y) b) (bidx (dim1 y) i) (bidx (dim2 y) k) |}
  | _, _, _ => Raise RuntimeError
  end.

(** [t.transpose(1, 2)] *)
Definition transpose_1_2 (t : Tensor3) : Tensor3 :=
  {| dim0 := dim0 t; dim1 := dim2 t; dim2 := dim1 t;
     get3 := fun b i k => get3 t b k i |}.

(** [torch.bmm(x, y)]: batched matrix product of (b, n, m) and (b, m, p). *)
Definition bmm (x y : Tensor3) : result Tensor3 :=
  if ((dim0 x =? dim0 y) && (dim2 x =? dim1 y))%nat%bool
  then Ok {| dim0 := dim0 x; dim1 := dim1 x; dim2 := dim2 y;
             get3 := fun b i j =>
               Rsum (dim2 x) (fun c => get3 x b i c * get3 y b c j) |}
  else Raise RuntimeError.

(** [t / s] for a zero-dimensional tensor [s]. *)
Definition div_scalar (t : Tensor3) (s : R) : Tensor3 :=
  map3 (fun v => v / s) t.

(** [F.softmax(t, dim=dim)]: exponentials normalised along axis [dim]. *)
Definition softmax (t : Tensor3) (dim : nat) : result Tensor3 :=
  match dim with
  | 0%nat =>
      Ok {| dim0 := dim0 t; dim1 := dim1 t; dim2 := dim2 t;
            get3 := fun b i k =>
              exp (get3 t b i k) /
              Rsum (dim0 t) (fun b' => exp (get3 t b' i k)) |}
  | 1%nat =>
      Ok {| dim0 := dim0 t; dim1 := dim1 t; dim2 := dim2 t;
            get3 := fun b i k =>
              exp (get3 t b i k) /
              Rsum (dim1 t) (fun i' => exp (get3 t b i' k)) |}
  | 2%nat =>
      Ok {| dim0 := dim0 t; dim1 := dim1 t; dim2 := dim2 t;
            get3 := fun b i k =>
              exp (get3 t b i k) /
              Rsum (dim2 t) (fun k' => exp (get3 t b i k')) |}
  | _ => Raise IndexError
  end.

(** [F.relu] on one element. *)
Definition relu (v : R) : R := Rmax 0 v.

(** Column read by [torch.cat(ts, dim=2)] at feature index [k]: the
    tensors' feature axes are laid one after the other, in list order. *)
Fixpoint cat_get (ts : list Tensor3) (b i k : nat) : R :=
  match ts with
  | [] => 0
  | t :: ts' =>
      if (k <? dim2 t)%nat then get3 t b i k
      else cat_get ts' b i (k - dim2 t)
  end.

(** [torch.cat(ts, dim=2)]: the list must not be empty and the tensors
    must agree on every other axis. *)
Definition cat_dim2 (ts : list Tensor3) : result Tensor3 :=
  match ts with
  | [] => Raise RuntimeError
  | t :: ts' =>
      if forallb (fun u => (dim0 u =? dim0 t) && (dim1 u =? dim1 t))%nat%bool
                 ts'
      then Ok {| dim0 := dim0 t; dim1 := dim1 t;
                 dim2 := list_sum (map dim2 ts);
                 get3 := cat_get ts |}
      else Raise RuntimeError
  end.

End torch.

(* ================================================================== *)
(** ** Scaled dot-product attention *)

Module ScaledDotProductAttention.

Inductive t : Type := Build.

Open Scope result_scope.

(** The local [queries_keys_similarity_probabilities] of [forward]. *)
Definition queries_keys_similarity_probabilities (queries keys : Tensor3)
  : result Tensor3 :=
  let d_k := dim2 queries in
  dot_product <- torch.bmm queries (torch.transpose_1_2 keys) ;;
  let scaled_dot_product :=
    torch.div_scalar dot_product (sqrt (INR d_k)) in
  torch.softmax scaled_dot_product 1.

Definition forward (self : t) (queries keys values : Tensor3)
  : result Tensor3 :=
  probabilities <- queries_keys_similarity_probabilities queries keys ;;
  torch.bmm probabilities values.

End ScaledDotProductAttention.


(* ================================================================== *)
(** ** Python integer division *)

(** [a % b] *)
Definition py_mod (a b : nat) : result nat :=
  if (b =? 0)%nat then Raise ZeroDivisionError else Ok (a mod b)%nat.

(** [a // b] *)
Definition py_floordiv (a b : nat) : result nat :=
  if (b =? 0)%nat then Raise ZeroDivisionError else Ok (a / b)%nat.

(** [x / n] for a float [x] and an integer [n]. *)
Definition py_truediv (x : R) (n : nat) : result R :=
  if (n =? 0)%nat then Raise ZeroDivisionError else Ok (x / INR n).

(** [range(n)] *)
Definition range (n : nat) : list nat := seq 0 n.

(* ================================================================== *)
(** ** Construction: the random generator and the constructor monad

    A constructor of a module with learnable parameters draws their initial
    values from torch's global generator, and may raise.  The generator is
    the stream of the values still to be drawn. *)

Record Generator : Type := { samples : nat -> R; cursor : nat }.

Definition draw (n : nat) (g : Generator) : (nat -> R) * Generator :=
  (fun i => samples g (cursor g + i),
   {| samples := samples g; cursor := cursor g + n |}).

Definition Init (A : Type) : Type := Generator -> result (A * Generator).

Definition ret {A : Type} (a : A) : Init A := fun g => Ok (a, g).

Definition lift {A : Type} (c : result A) : Init A :=
  fun g => match c with Ok a => Ok (a, g) | Raise e => Raise e end.

Definition bindI {A B : Type} (c : Init A) (k : A -> Init B) : Init B :=
  fun g => match c g with
           | Ok (a, g') => k a g'
           | Raise e => Raise e
           end.

Declare Scope init_scope.
Delimit Scope init_scope with init.
Notation "x <- c ;; k" := (bindI c (fun x => k))
  (at level 61, c at next level, right associativity) : init_scope.

(** [[f(x) for x in l]] where [f] constructs a module. *)
Fixpoint mapI {A B : Type} (f : A -> Init B) (l : list A) : Init (list B) :=
  match l with
  | [] => ret []
  | a :: l' =>
      bindI (f a) (fun b => bindI (mapI f l') (fun bs => ret (b :: bs)))
  end.

(* ================================================================== *)
(** ** [nn.Linear] and [nn.LayerNorm]

    Modules of the torch library, embedded after their documented
    behaviour: [Linear] computes [x W^T + b] on the last axis and rejects
    an input whose last axis is not [in_features]; [LayerNorm] standardises
    the last axis with the biased variance and [eps] under the root. *)

Module Linear.

Record t : Type :=
  { in_features : nat;
    out_features : nat;
    weight : nat -> nat -> R;       (* shape (out_features, in_features) *)
    bias : option (nat -> R) }.     (* shape (out_features), or absent *)

(** [nn.Linear(in_features, out_features, bias)]: the weight is drawn
    first, then the bias when there is one. *)
Definition init (in_features out_features : nat) (bias : bool) : Init t :=
  fun g =>
    let (w, g1) := draw (out_features * in_features) g in
    if bias then
      let (b, g2) := draw out_features g1 in
      Ok ({| in_features := in_features; out_features := out_features;
             weight := fun o i => w (o * in_features + i)%nat;
             bias := Some b |}, g2)
    else
      Ok ({| in_features := in_features; out_features := out_features;
             weight := fun o i => w (o * in_features + i)%nat;
             bias := None |}, g1).

(** [y = x W^T + b] on the last axis. *)
Definition forward (self : t) (x : Tensor3) : result Tensor3 :=
  if (dim2 x =? in_features self)%nat
  then Ok {| dim0 := dim0 x; dim1 := dim1 x; dim2 := out_features self;
             get3 := fun b i o =>
               let xw := Rsum (in_features self)
                              (fun k => get3 x b i k * weight self o k) in
               match bias self with
               | Some bv => xw + bv o
               | None => xw
               end |}
  else Raise RuntimeError.

End Linear.

Module LayerNorm.

Record t : Type :=
  { normalized_shape : nat;
    eps : R;
    weight : nat -> R;
    bias : nat -> R }.

(** [nn.LayerNorm(normalized_shape)]: scale 1, shift 0, eps 1e-5. *)
Definition init (normalized_shape : nat) : Init t :=
  ret {| normalized_shape := normalized_shape;
         eps := / 100000;
         weight := fun _ => 1;
         bias := fun _ => 0 |}.

Definition mean (n : nat) (v : nat -> R) : R := Rsum n v / INR n.

Definition var (n : nat) (v : nat -> R) : R :=
  Rsum n (fun k => (v k - mean n v) * (v k - mean n v)) / INR n.

(** Standardisation of every feature vector (last axis), then the
    per-feature scale and shift. *)
Definition forward (self : t) (x : Tensor3) : result Tensor3 :=
  if (dim2 x =? normalized_shape self)%nat
  then Ok {| dim0 := dim0 x; dim1 := dim1 x; dim2 := dim2 x;
             get3 := fun b i k =>
               let v := get3 x b i in
               (v k - mean (dim2 x) v) / sqrt (var (dim2 x) v + eps self)
               * weight self k + bias self k |}
  else Raise RuntimeError.

End LayerNorm.

(* ================================================================== *)
(** ** Positional encoding *)

Module PositionalEncoding.

Record t : Type := { positional_encoding_matrix : Tensor3 }.

Open Scope result_scope.

Definition compute_positional_encoding_matrix (max_seq_length d_model : nat)
  : result Tensor3 :=
  let positions := torch.unsqueeze1 (torch.arange max_seq_length) in
  let even_dimensions := torch.arange_step2 d_model in
  c <- py_truediv (- ln 10000) d_model ;;
  let division_term := torch.map1 exp (torch.mul_scalar1 even_dimensions c) in
  let positional_encoding_matrix := torch.zeros 1 max_seq_length d_model in
  angles <- torch.mul_2_1 positions division_term ;;
  positional_encoding_matrix <-
    torch.setitem_0_all_stride2 positional_encoding_matrix 0
                                (torch.map2 sin angles) ;;
  angles <- torch.mul_2_1 positions division_term ;;
  positional_encoding_matrix <-
    torch.setitem_0_all_stride2 positional_encoding_matrix 1
                                (torch.map2 cos angles) ;;
  Ok positional_encoding_matrix.

Definition init (max_seq_length d_model : nat) : result t :=
  m <- compute_positional_encoding_matrix max_seq_length d_model ;;
  Ok {| positional_encoding_matrix := m |}.

(** [forward] returns the new tensor; the module is threaded through so
    that what the call does to it is explicit. *)
Definition forward (self : t) (embedding : Tensor3) : result (Tensor3 * t) :=
  out <- torch.add embedding
           (torch.slice_dim1 (positional_encoding_matrix self)
                             (dim1 embedding)) ;;
  Ok (out, self).

End PositionalEncoding.

(* ================================================================== *)
(** ** Multi-head attention *)

Module MultiHeadAttention.

Record t : Type :=
  { queries_projections : list Linear.t;
    keys_projections : list Linear.t;
    values_projections : list Linear.t;
    attentions : list ScaledDotProductAttention.t;
    multi_head_linear : Linear.t }.

Definition init (num_heads d_k d_v d_model : nat) : Init t :=
  (_ <- lift (r <- py_mod d_model num_heads ;;
              py_assert (r =? 0)%nat
                        "d_model must be divisible by num_heads")%result ;;
   _ <- lift (q <- py_floordiv d_model num_heads ;;
              py_assert (d_k =? q)%nat
                        "d_k must be equal to d_model // num_heads")%result ;;
   _ <- lift (q <- py_floordiv d_model num_heads ;;
              py_assert (d_v =? q)%nat
                        "d_v must be equal to d_model // num_heads")%result ;;
   queries_projections <-
     mapI (fun _ => Linear.init d_model d_k false) (range num_heads) ;;
   keys_projections <-
     mapI (fun _ => Linear.init d_model d_k false) (range num_heads) ;;
   values_projections <-
     mapI (fun _ => Linear.init d_model d_v false) (range num_heads) ;;
   attentions <-
     mapI (fun _ => ret ScaledDotProductAttention.Build) (range num_heads) ;;
   multi_head_linear <- Linear.init (num_heads * d_v) d_model true ;;
   ret {| queries_projections := queries_projections;
          keys_projections := keys_projections;
          values_projections := values_projections;
          attentions := attentions;
          multi_head_linear := multi_head_linear |})%init.

Open Scope result_scope.

(** One element of the comprehension that builds [heads]. *)
Definition head (self : t) (queries keys values : Tensor3)
           (ia : nat * ScaledDotProductAttention.t) : result Tensor3 :=
  let (i, attention) := ia in
  wq <- getitem (queries_projections self) i ;;
  q <- Linear.forward wq queries ;;
  wk <- getitem (keys_projections self) i ;;
  k <- Linear.forward wk keys ;;
  wv <- getitem (values_projections self) i ;;
  v <- Linear.forward wv values ;;
  ScaledDotProductAttention.forward attention q k v.

Definition forward (self : t) (queries keys values : Tensor3)
  : result Tensor3 :=
  heads <- mapM (head self queries keys values)
                (enumerate (attentions self)) ;;
  heads_concatenated <- torch.cat_dim2 heads ;;
  Linear.forward (multi_head_linear self) heads_concatenated.

End MultiHeadAttention.

(* ================================================================== *)
(** ** Position-wise feed-forward network *)

Module PositionWiseFeedForwardNetwork.

Record t : Type := { linear_1 : Linear.t; linear_2 : Linear.t }.

(** The default value of the keyword argument [d_ff]. *)
Definition d_ff_default : nat := 2048.

(** [d_ff = None] is a call that leaves the keyword argument out. *)
Definition init (d_model : nat) (d_ff : option nat) : Init t :=
  let d_ff := match d_ff with Some n => n | None => d_ff_default end in
  (linear_1 <- Linear.init d_model d_ff true ;;
   linear_2 <- Linear.init d_ff d_model true ;;
   ret {| linear_1 := linear_1; linear_2 := linear_2 |})%init.

Open Scope result_scope.

Definition forward (self : t) (x : Tensor3) : result Tensor3 :=
  h <- Linear.forward (linear_1 self) x ;;
  Linear.forward (linear_2 self) (torch.map3 torch.relu h).

End PositionWiseFeedForwardNetwork.

(* ================================================================== *)
(** ** Encoder layer and encoder *)

Module EncoderLayer.

Record t : Type :=
  { multi_head_attention : MultiHeadAttention.t;
    layer_normalization_1 : LayerNorm.t;
    position_wise_feed_forward_network : PositionWiseFeedForwardNetwork.t;
    layer_normalization_2 : LayerNorm.t }.

Definition init (num_heads d_k d_v d_model : nat) : Init t :=
  (multi_head_attention <- MultiHeadAttention.init num_heads d_k d_v d_model ;;
   layer_normalization_1 <- LayerNorm.init d_model ;;
   position_wise_feed_forward_network <-
     PositionWiseFeedForwardNetwork.init d_model (Some 2048%nat) ;;
   layer_normalization_2 <- LayerNorm.init d_model ;;
   ret {| multi_head_attention := multi_head_attention;
          layer_normalization_1 := layer_normalization_1;
          position_wise_feed_forward_network :=
            position_wise_feed_forward_network;
          layer_normalization_2 := layer_normalization_2 |})%init.

Open Scope result_scope.

Definition forward (self : t) (x : Tensor3) : result Tensor3 :=
  a <- MultiHeadAttention.forward (multi_head_attention self) x x x ;;
  x <- torch.add x a ;;
  x <- LayerNorm.forward (layer_normalization_1 self) x ;;
  f <- PositionWiseFeedForwardNetwork.forward
         (position_wise_feed_forward_network self) x ;;
  x <- torch.add x f ;;
  x <- LayerNorm.forward (layer_normalization_2 self) x ;;
  Ok x.

End EncoderLayer.

Module TransformerEncoder.

Record t : Type := { layers : list EncoderLayer.t }.

Definition init (num_layers num_heads sequence_length d_model : nat) : Init t :=
  (layers <-
     mapI (fun _ => EncoderLayer.init num_heads sequence_length
                                      sequence_length d_model)
          (range num_layers) ;;
   ret {| layers := layers |})%init.

(** The body of [for layer in self.layers: x = layer(x)]. *)
Fixpoint loop (ls : list EncoderLayer.t) (x : Tensor3) : result Tensor3 :=
  match ls with
  | [] => Ok x
  | layer :: ls' =>
      match EncoderLayer.forward layer x with
      | Ok x' => loop ls' x'
      | Raise e => Raise e
      end
  end.

Definition forward (self : t) (x : Tensor3) : result Tensor3 :=
  loop (layers self) x.

End TransformerEncoder.


(* ================================================================== *)
(** ** The top-level model *)

(** [nn.Embedding], a module of the torch library: a table of
    [num_embeddings] rows of [embedding_dim] entries, drawn at
    construction. *)
Module Embedding.

Record t : Type :=
  { num_embeddings : nat;
    embedding_dim : nat;
    weight : nat -> nat -> R }.

Definition init (num_embeddings embedding_dim : nat) : Init t :=
  fun g =>
    let (w, g1) := draw (num_embeddings * embedding_dim) g in
    Ok ({| num_embeddings := num_embeddings;
           embedding_dim := embedding_dim;
           weight := fun r c => w (r * embedding_dim + c)%nat |}, g1).

End Embedding.

Module Transformer.

(** What the constructor raises: an exception of a constructor it calls,
    or the NameError of a global name that no cell of the notebook
    binds. *)
Inductive raised : Type :=
| Propagated (e : exception)
| NameError (name : string).

(** The notebook defines no class [TransformerDecoder]: the cell under
    the heading "Decoder" is empty.  The class has no instance. *)
Inductive TransformerDecoder : Type := .

Record t : Type :=
  { embedding : Embedding.t;
    positional_encoding : PositionalEncoding.t;
    encoder : TransformerEncoder.t;
    decoder : TransformerDecoder;
    output_linear : Linear.t;
    d_model : nat }.

(** The default values of the keyword arguments. *)
Definition d_model_default : nat := 512.
Definition num_layers_default : nat := 6.

(** [None] for [d_model] or [num_layers] is a call that leaves the keyword
    argument out.  The attributes are built in the order of the
    assignments; the fourth one looks up [TransformerDecoder]. *)
Definition init (tokens_dictionary_size max_sequence_length num_heads
                 sequence_length : nat) (d_model num_layers : option nat)
  : Generator -> raised + (t * Generator) :=
  fun g =>
    let d_model :=
      match d_model with Some n => n | None => d_model_default end in
    let num_layers :=
      match num_layers with Some n => n | None => num_layers_default end in
    match Embedding.init tokens_dictionary_size d_model g with
    | Raise e => inl (Propagated e)
    | Ok (embedding, g1) =>
        match PositionalEncoding.init max_sequence_length d_model with
        | Raise e => inl (Propagated e)
        | Ok positional_encoding =>
            match TransformerEncoder.init num_layers num_heads
                                          sequence_length d_model g1 with
            | Raise e => inl (Propagated e)
            | Ok (encoder, g2) => inl (NameError "TransformerDecoder")
            end
        end
    end.

End Transformer.

(* ================================================================== *)
(** ** Configurations of the modules

    What a constructor establishes and training preserves: the sizes of
    the parameters and which linear maps carry a bias. *)

Definition has_bias (m : Linear.t) : bool :=
  match Linear.bias m with Some _ => true | None => false end.

Definition Linear_is (m : Linear.t) (i o : nat) (b : bool) : Prop :=
  Linear.in_features m = i /\ Linear.out_features m = o /\ has_bias m = b.

Record MultiHeadAttention_wf (self : MultiHeadAttention.t)
       (num_heads d_k d_v d_model : nat) : Prop :=
  { wf_num_heads : (1 <= num_heads)%nat;
    wf_queries_length :
      List.length (MultiHeadAttention.queries_projections self) = num_heads;
    wf_keys_length :
      List.length (MultiHeadAttention.keys_projections self) = num_heads;
    wf_values_length :
      List.length (MultiHeadAttention.values_projections self) = num_heads;
    wf_attentions_length :
      List.length (MultiHeadAttention.attentions self) = num_heads;
    wf_queries :
      Forall (fun m => Linear_is m d_model d_k false)
             (MultiHeadAttention.queries_projections self);
    wf_keys :
      Forall (fun m => Linear_is m d_model d_k false)
             (MultiHeadAttention.keys_projections self);
    wf_values :
      Forall (fun m => Linear_is m d_model d_v false)
             (MultiHeadAttention.values_projections self);
    wf_multi_head_linear :
      Linear_is (MultiHeadAttention.multi_head_linear self)
                (num_heads * d_v) d_model true }.

Record FeedForward_wf (self : PositionWiseFeedForwardNetwork.t)
       (d_model d_ff : nat) : Prop :=
  { wf_linear_1 :
      Linear_is (PositionWiseFeedForwardNetwork.linear_1 self)
                d_model d_ff true;
    wf_linear_2 :
      Linear_is (PositionWiseFeedForwardNetwork.linear_2 self)
                d_ff d_model true }.

Record EncoderLayer_wf (self : EncoderLayer.t)
       (num_heads d_k d_v d_model : nat) : Prop :=
  { wf_attention :
      MultiHeadAttention_wf (EncoderLayer.multi_head_attention self)
                            num_heads d_k d_v d_model;
    wf_norm_1 :
      LayerNorm.normalized_shape (EncoderLayer.layer_normalization_1 self)
      = d_model;
    wf_feed_forward :
      FeedForward_wf (EncoderLayer.position_wise_feed_forward_network self)
                     d_model 2048;
    wf_norm_2 :
      LayerNorm.normalized_shape (EncoderLayer.layer_normalization_2 self)
      = d_model }.

(** [is_head self d_model d_k d_v queries keys values h hd]: [hd] is
    scaled dot-product attention over the images of [queries], [keys] and
    [values] under the three projections of index [h], which carry no bias
    and map [d_model] features to [d_k], [d_k] and [d_v] features. *)
Definition is_head (self : MultiHeadAttention.t) (d_model d_k d_v : nat)
           (queries keys values : Tensor3) (h : nat) (hd : Tensor3) : Prop :=
  exists wq wk wv q k v,
    nth_error (MultiHeadAttention.queries_projections self) h = Some wq /\
    nth_error (MultiHeadAttention.keys_projections self) h = Some wk /\
    nth_error (MultiHeadAttention.values_projections self) h = Some wv /\
    Linear_is wq d_model d_k false /\
    Linear_is wk d_model d_k false /\
    Linear_is wv d_model d_v false /\
    Linear.forward wq queries = Ok q /\
    Linear.forward wk keys = Ok k /\
    Linear.forward wv values = Ok v /\
    ScaledDotProductAttention.forward ScaledDotProductAttention.Build q k v
    = Ok hd.

(** The image of a feature vector under a linear map. *)
Definition Linear_row (m : Linear.t) (v : nat -> R) (o : nat) : R :=
  match Linear.bias m with
  | Some bv => Rsum (Linear.in_features m)
                    (fun k => v k * Linear.weight m o k) + bv o
  | None => Rsum (Linear.in_features m) (fun k => v k * Linear.weight m o k)
  end.

(** [built f ms g g']: the modules [ms] were built one by one, each by a
    call of its own to the constructor [f], the first from the generator
    state [g], each next one from the state the one before left, the last
    one leaving [g']. *)
Inductive built {A : Type} (f : Init A)
  : list A -> Generator -> Generator -> Prop :=
| built_nil (g : Generator) : built f [] g g
| built_cons (a : A) (ms : list A) (g g1 g2 : Generator) :
    f g = Ok (a, g1) -> built f ms g1 g2 -> built f (a :: ms) g g2.

(** The errors a constructor raises on a bad configuration: a failed
    [assert], or the [ZeroDivisionError] of [d_model % 0]. *)
Definition configuration_error (e : exception) : bool :=
  match e with
  | AssertionError _ | ZeroDivisionError => true
  | IndexError | RuntimeError => false
  end.

(** [feeds ls x y]: [y] is obtained from [x] by running the layers [ls]
    one after the other, each on the output of the one before, and
    nothing else. *)
Inductive feeds : list EncoderLayer.t -> Tensor3 -> Tensor3 -> Prop :=
| feeds_nil (x : Tensor3) : feeds [] x x
| feeds_cons (layer : EncoderLayer.t) (ls : list EncoderLayer.t)
             (x y z : Tensor3) :
    EncoderLayer.forward layer x = Ok y -> feeds ls y z ->
    feeds (layer :: ls) x z.

(** The angular frequency of the feature pair [i] in dimension [d]. *)
Definition omega (d i : nat) : R := exp (- (2 * INR i) * ln 10000 / INR d).

(** A batch of one sequence of the two vectors (0) and (1). *)
Definition input_1_2_1 : Tensor3 :=
  {| dim0 := 1; dim1 := 2; dim2 := 1; get3 := fun _ i _ => INR i |}.

(** A batch of two sequences of two vectors: (5), (5) and (0), (1). *)
Definition input_2_2_1 : Tensor3 :=
  {| dim0 := 2; dim1 := 2; dim2 := 1;
     get3 := fun b i _ => if (b =? 1)%nat then INR i else 5 |}.


(** A generator that yields the values 0, 1, 2, ... *)
Definition counting : Generator := {| samples := INR; cursor := 0 |}.

(* ================================================================== *)
(** ** Small concrete modules and inputs *)

(** A linear map whose coefficients all equal [w]. *)
Definition const_linear (i o : nat) (b : bool) (w : R) : Linear.t :=
  {| Linear.in_features := i;
     Linear.out_features := o;
     Linear.weight := fun _ _ => w;
     Linear.bias := if b then Some (fun _ => w) else None |}.

(** One head on a model of dimension 2. *)
Definition attention_1 : MultiHeadAttention.t :=
  {| MultiHeadAttention.queries_projections := [const_linear 2 2 false 1];
     MultiHeadAttention.keys_projections := [const_linear 2 2 false 1];
     MultiHeadAttention.values_projections := [const_linear 2 2 false 1];
     MultiHeadAttention.attentions := [ScaledDotProductAttention.Build];
     MultiHeadAttention.multi_head_linear := const_linear 2 2 true 1 |}.

(** Two heads of dimension 1 on a model of dimension 2. *)
Definition attention_2 : MultiHeadAttention.t :=
  {| MultiHeadAttention.queries_projections :=
       [const_linear 2 1 false 1; const_linear 2 1 false 2];
     MultiHeadAttention.keys_projections :=
       [const_linear 2 1 false 1; const_linear 2 1 false 2];
     MultiHeadAttention.values_projections :=
       [const_linear 2 1 false 1; const_linear 2 1 false 2];
     MultiHeadAttention.attentions :=
       [ScaledDotProductAttention.Build; ScaledDotProductAttention.Build];
     MultiHeadAttention.multi_head_linear := const_linear 2 2 true 1 |}.

Definition feed_forward_2 : PositionWiseFeedForwardNetwork.t :=
  {| PositionWiseFeedForwardNetwork.linear_1 := const_linear 2 2048 true 1;
     PositionWiseFeedForwardNetwork.linear_2 := const_linear 2048 2 true 1 |}.

Definition norm_2 : LayerNorm.t :=
  {| LayerNorm.normalized_shape := 2;
     LayerNorm.eps := / 100000;
     LayerNorm.weight := fun _ => 1;
     LayerNorm.bias := fun _ => 0 |}.

Definition layer_2 : EncoderLayer.t :=
  {| EncoderLayer.multi_head_attention := attention_2;
     EncoderLayer.layer_normalization_1 := norm_2;
     EncoderLayer.position_wise_feed_forward_network := feed_forward_2;
     EncoderLayer.layer_normalization_2 := norm_2 |}.

Definition encoder_2 : TransformerEncoder.t :=
  {| TransformerEncoder.layers := [layer_2; layer_2; layer_2] |}.

(** A table of 3 positions in dimension 2, and a batch of one sequence of
    3 vectors of dimension 2. *)
Definition table_3_2 : PositionalEncoding.t :=
  {| PositionalEncoding.positional_encoding_matrix := torch.zeros 1 3 2 |}.

Definition input_1_3_2 : Tensor3 :=
  {| dim0 := 1; dim1 := 3; dim2 := 2;
     get3 := fun _ i k => INR i + INR k |}.

(* ================================================================== *)
(** * Properties *)

(** ** Sums *)

Lemma Rsum_ext (n : nat) (f g : nat -> R) :
  (forall i, (i < n)%nat -> f i = g i) -> Rsum n f = Rsum n g.
Proof.
  induction n as [|n IH]; intros Hfg; simpl.
  - reflexivity.
  - rewrite IH by (intros i Hi; apply Hfg; lia).
    rewrite (Hfg n) by lia. reflexivity.
Qed.

Lemma Rsum_div (n : nat) (f : nat -> R) (c : R) :
  Rsum n (fun i => f i / c) = Rsum n f / c.
Proof.
  induction n as [|n IH]; simpl.
  - unfold Rdiv. rewrite Rmult_0_l. reflexivity.
  - rewrite IH. unfold Rdiv. rewrite Rmult_plus_distr_r. reflexivity.
Qed.

Lemma Rsum_exp_pos (n : nat) (f : nat -> R) :
  (0 < n)%nat -> 0 < Rsum n (fun i => exp (f i)).
Proof.
  induction n as [|n IH]; intros Hn.
  - lia.
  - simpl. destruct n as [|n].
    + simpl. pose proof (exp_pos (f 0%nat)). lra.
    + pose proof (exp_pos (f (S n))).
      assert (0 < Rsum (S n) (fun i => exp (f i))) by (apply IH; lia).
      lra.
Qed.

(** Exponentials divided by their sum add up to 1. *)
Lemma Rsum_softmax (n : nat) (f : nat -> R) :
  (0 < n)%nat ->
  Rsum n (fun i => exp (f i) / Rsum n (fun i' => exp (f i'))) = 1.
Proof.
  intros Hn. rewrite Rsum_div.
  pose proof (Rsum_exp_pos n f Hn) as Hpos.
  unfold Rdiv. apply Rinv_r. lra.
Qed.

(** ** The error monad *)

Lemma bind_Ok {A B : Type} (c : result A) (k : A -> result B) (b : B) :
  bind c k = Ok b -> exists a, c = Ok a /\ k a = Ok b.
Proof.
  destruct c as [a|e]; simpl; intros H.
  - exists a. split; [reflexivity | exact H].
  - discriminate H.
Qed.

(** ** Scaled dot-product attention: which axis the softmax normalises *)

Lemma bmm_Ok (x y : Tensor3) :
  dim0 x = dim0 y -> dim2 x = dim1 y ->
  torch.bmm x y =
  Ok {| dim0 := dim0 x; dim1 := dim1 x; dim2 := dim2 y;
        get3 := fun b i j =>
          Rsum (dim2 x) (fun c => get3 x b i c * get3 y b c j) |}.
Proof.
  intros H0 H2. unfold torch.bmm.
  rewrite H0, H2, !Nat.eqb_refl. reflexivity.
Qed.

(** The attention weights exist as soon as the batch sizes and the key
    dimensions of queries and keys agree, and have shape (B, Lq, Lk). *)
Lemma probabilities_shape (queries keys : Tensor3) :
  dim0 queries = dim0 keys -> dim2 queries = dim2 keys ->
  exists w,
    ScaledDotProductAttention.queries_keys_similarity_probabilities
      queries keys = Ok w /\
    shape w = (dim0 queries, dim1 queries, dim1 keys).
Proof.
  intros H0 H2.
  unfold ScaledDotProductAttention.queries_keys_similarity_probabilities.
  rewrite bmm_Ok by assumption. simpl. eexists. split; reflexivity.
Qed.

(** What the code normalises: for every batch element and every KEY
    position, the weights over all queries sum to 1 (for a key dimension
    that is not zero: the scores are divided by its square root). *)
Lemma probabilities_sum_over_queries (queries keys w : Tensor3) :
  ScaledDotProductAttention.queries_keys_similarity_probabilities
    queries keys = Ok w ->
  (0 < dim1 queries)%nat -> (0 < dim2 queries)%nat ->
  forall b j, Rsum (dim1 w) (fun i => get3 w b i j) = 1.
Proof.
  unfold ScaledDotProductAttention.queries_keys_similarity_probabilities.
  intros H Hq _ b j.
  apply bind_Ok in H. destruct H as [d [Hd Hw]].
  unfold torch.bmm in Hd.
  destruct ((dim0 queries =? dim0 (torch.transpose_1_2 keys))%nat &&
            (dim2 queries =? dim1 (torch.transpose_1_2 keys))%nat)%bool;
    [|discriminate Hd].
  injection Hd as <-. simpl in Hw. injection Hw as <-. simpl.
  apply (Rsum_softmax (dim1 queries)
           (fun i => Rsum (dim2 queries)
                       (fun c => get3 queries b i c * get3 keys b j c)
                     / sqrt (INR (dim2 queries))) Hq).
Qed.

(** What a softmax along the key axis ([dim=2]) would give. *)
Lemma softmax_dim2_sum_over_keys (s w : Tensor3) :
  torch.softmax s 2 = Ok w -> (0 < dim2 s)%nat ->
  forall b i, Rsum (dim2 w) (fun j => get3 w b i j) = 1.
Proof.
  intros H Hk b i. simpl in H. injection H as <-. simpl.
  apply (Rsum_softmax (dim2 s) (fun j => get3 s b i j) Hk).
Qed.

Lemma exp_1_gt_1 : 1 < exp 1.
Proof. rewrite <- exp_0 at 1. apply exp_increasing. lra. Qed.

(** One query, two keys, all entries 0 (B = 1, Lq = 1, Lk = 2, d_k = 1):
    both weights are 1, over the two keys they sum to 2, and with values
    1 and 1 the output is 2, outside the convex hull of the values. *)
Lemma sdpa_one_query_two_keys :
  exists w out,
    ScaledDotProductAttention.queries_keys_similarity_probabilities
      (torch.zeros 1 1 1) (torch.zeros 1 2 1) = Ok w /\
    shape w = (1, 1, 2)%nat /\
    Rsum (dim2 w) (fun j => get3 w 0%nat 0%nat j) = 2 /\
    ScaledDotProductAttention.forward ScaledDotProductAttention.Build
      (torch.zeros 1 1 1) (torch.zeros 1 2 1)
      (torch.map3 (fun _ => 1) (torch.zeros 1 2 1)) = Ok out /\
    shape out = (1, 1, 1)%nat /\
    get3 out 0%nat 0%nat 0%nat = 2.
Proof.
  assert (Hone : exp ((0 + 0 * 0) / sqrt 1) /
                 (0 + exp ((0 + 0 * 0) / sqrt 1)) = 1).
  { replace ((0 + 0 * 0) / sqrt 1) with 0
      by (unfold Rdiv; rewrite Rmult_0_r, Rplus_0_r, Rmult_0_l; reflexivity).
    rewrite exp_0. lra. }
  eexists. eexists.
  split; [reflexivity|].
  split; [reflexivity|].
  simpl. rewrite Hone.
  split; [lra|].
  split; [reflexivity|]. split; [reflexivity|].
  simpl. rewrite Hone. lra.
Qed.

(** C1 (the code departs from the claim).  Self-attention on one sequence
    of the two vectors (0) and (1) (B = 1, Lq = Lk = 2, d_k = 1): the
    scores are 0, 0, 0, 1; the weights have shape (1, 2, 2); for the first
    query the weights over the two keys are 1/2 and 1/(1+e), which do not
    sum to 1, whereas for each key the weights over the two queries do. *)
Theorem sdpa_weights_over_keys_do_not_sum_to_1 :
  exists w,
    ScaledDotProductAttention.queries_keys_similarity_probabilities
      input_1_2_1 input_1_2_1 = Ok w /\
    shape w = (1, 2, 2)%nat /\
    get3 w 0%nat 0%nat 0%nat = 1 / 2 /\
    get3 w 0%nat 0%nat 1%nat = 1 / (1 + exp 1) /\
    Rsum (dim2 w) (fun j => get3 w 0%nat 0%nat j) <> 1 /\
    Rsum (dim1 w) (fun i => get3 w 0%nat i 0%nat) = 1 /\
    Rsum (dim1 w) (fun i => get3 w 0%nat i 1%nat) = 1.
Proof.
  pose proof exp_1_gt_1 as He.
  assert (H0 : forall a b : R, a * b = 0 -> (0 + a * b) / sqrt 1 = 0).
  { intros a b ->. unfold Rdiv. rewrite Rplus_0_r, Rmult_0_l. reflexivity. }
  assert (H1 : (0 + 1 * 1) / sqrt 1 = 1).
  { rewrite sqrt_1. lra. }
  eexists. split; [reflexivity|]. split; [reflexivity|].
  cbn [get3 dim0 dim1 dim2 Rsum INR input_1_2_1 torch.div_scalar torch.map3
       torch.transpose_1_2].
  rewrite !(H0 0 0), !(H0 0 1), !(H0 1 0), H1, exp_0 by lra.
  assert (Hq : 1 / (1 + exp 1) < 1 / 2).
  { unfold Rdiv. rewrite !Rmult_1_l. apply Rinv_lt_contravar; lra. }
  assert (Hn : 1 + exp 1 <> 0) by lra.
  repeat split.
  - lra.
  - f_equal. lra.
  - replace (0 + 1 + exp 1) with (1 + exp 1) by lra. lra.
  - lra.
  - replace (0 + 1 + exp 1) with (1 + exp 1) by lra. field. exact Hn.
Qed.

(** ** Construction *)

Lemma bindI_Ok {A B : Type} {c : Init A} (k : A -> Init B)
      {g g' : Generator} {a : A} :
  c g = Ok (a, g') -> bindI c k g = k a g'.
Proof. intros H. unfold bindI. rewrite H. reflexivity. Qed.

Lemma bindI_Raise {A B : Type} {c : Init A} (k : A -> Init B)
      {g : Generator} {e : exception} :
  c g = Raise e -> bindI c k g = Raise e.
Proof. intros H. unfold bindI. rewrite H. reflexivity. Qed.

(** A comprehension over constructors that cannot fail does not fail, and
    builds one module per element. *)
Lemma mapI_total {A B : Type} (f : A -> Init B) (P : B -> Prop) :
  (forall a g, exists b g', f a g = Ok (b, g') /\ P b) ->
  forall l g, exists bs g',
    mapI f l g = Ok (bs, g') /\ List.length bs = List.length l /\ Forall P bs.
Proof.
  intros Hf l. induction l as [|a l IH]; intros g.
  - exists [], g. simpl. unfold ret. auto.
  - destruct (Hf a g) as (b & g1 & Hb & HP).
    destruct (IH g1) as (bs & g2 & Hbs & Hlen & HPs).
    exists (b :: bs), g2. simpl.
    rewrite (bindI_Ok _ Hb), (bindI_Ok _ Hbs). unfold ret.
    simpl. auto.
Qed.

Lemma Linear_init_total (i o : nat) (b : bool) (g : Generator) :
  exists m g', Linear.init i o b g = Ok (m, g') /\ Linear_is m i o b.
Proof.
  unfold Linear.init, draw. destruct b; eexists; eexists;
    (split; [reflexivity | repeat split]).
Qed.

Lemma range_length (n : nat) : List.length (range n) = n.
Proof. apply length_seq. Qed.

(** Past its three assertions, the constructor of [MultiHeadAttention]
    cannot fail. *)
Lemma MultiHeadAttention_init_Ok (num_heads d_k d_v d_model : nat)
      (g : Generator) :
  num_heads <> 0%nat ->
  (d_model mod num_heads = 0)%nat ->
  d_k = (d_model / num_heads)%nat ->
  d_v = (d_model / num_heads)%nat ->
  exists m g',
    MultiHeadAttention.init num_heads d_k d_v d_model g = Ok (m, g') /\
    MultiHeadAttention_wf m num_heads d_k d_v d_model.
Proof.
  intros Hh Hmod Hk Hv.
  unfold MultiHeadAttention.init.
  assert (Hchk : forall (d : nat), d = (d_model / num_heads)%nat ->
            forall msg g0,
              lift (bind (py_floordiv d_model num_heads)
                         (fun q => py_assert (d =? q)%nat msg)) g0
              = Ok (tt, g0)).
  { intros d Hd msg g0. unfold lift, py_floordiv.
    destruct (num_heads =? 0)%nat eqn:E;
      [apply Nat.eqb_eq in E; contradiction|].
    simpl. rewrite Hd, Nat.eqb_refl. reflexivity. }
  assert (Hdiv : forall msg g0,
            lift (bind (py_mod d_model num_heads)
                       (fun r => py_assert (r =? 0)%nat msg)) g0
            = Ok (tt, g0)).
  { intros msg g0. unfold lift, py_mod.
    destruct (num_heads =? 0)%nat eqn:E;
      [apply Nat.eqb_eq in E; contradiction|].
    simpl. rewrite Hmod. reflexivity. }
  rewrite (bindI_Ok _ (Hdiv _ g)).
  rewrite (bindI_Ok _ (Hchk d_k Hk _ g)).
  rewrite (bindI_Ok _ (Hchk d_v Hv _ g)).
  destruct (mapI_total (fun _ : nat => Linear.init d_model d_k false)
              (fun m => Linear_is m d_model d_k false)
              (fun _ g0 => Linear_init_total d_model d_k false g0)
              (range num_heads) g) as (qs & g1 & Eq & Lq & Pq).
  rewrite (bindI_Ok _ Eq).
  destruct (mapI_total (fun _ : nat => Linear.init d_model d_k false)
              (fun m => Linear_is m d_model d_k false)
              (fun _ g0 => Linear_init_total d_model d_k false g0)
              (range num_heads) g1) as (ks & g2 & Ek & Lk & Pk).
  rewrite (bindI_Ok _ Ek).
  destruct (mapI_total (fun _ : nat => Linear.init d_model d_v false)
              (fun m => Linear_is m d_model d_v false)
              (fun _ g0 => Linear_init_total d_model d_v false g0)
              (range num_heads) g2) as (vs & g3 & Ev & Lv & Pv).
  rewrite (bindI_Ok _ Ev).
  destruct (mapI_total
              (fun _ : nat => ret ScaledDotProductAttention.Build)
              (fun _ => True)
              (fun _ g0 => ex_intro _ ScaledDotProductAttention.Build
                             (ex_intro _ g0 (conj eq_refl I)))
              (range num_heads) g3) as (ats & g4 & Ea & La & _).
  rewrite (bindI_Ok _ Ea).
  destruct (Linear_init_total (num_heads * d_v) d_model true g4)
    as (mhl & g5 & Em & Pm).
  rewrite (bindI_Ok _ Em).
  eexists. eexists. split; [reflexivity|].
  rewrite range_length in Lq, Lk, Lv, La.
  constructor; simpl; try assumption. lia.
Qed.

(** Which exception the constructor raises, and when. *)
Lemma MultiHeadAttention_init_Raise (num_heads d_k d_v d_model : nat)
      (g : Generator) :
  (num_heads = 0%nat ->
   MultiHeadAttention.init num_heads d_k d_v d_model g
   = Raise ZeroDivisionError) /\
  (num_heads <> 0%nat -> (d_model mod num_heads)%nat <> 0%nat ->
   MultiHeadAttention.init num_heads d_k d_v d_model g
   = Raise (AssertionError "d_model must be divisible by num_heads")) /\
  (num_heads <> 0%nat -> (d_model mod num_heads)%nat = 0%nat ->
   d_k <> (d_model / num_heads)%nat ->
   MultiHeadAttention.init num_heads d_k d_v d_model g
   = Raise (AssertionError "d_k must be equal to d_model // num_heads")) /\
  (num_heads <> 0%nat -> (d_model mod num_heads)%nat = 0%nat ->
   d_k = (d_model / num_heads)%nat ->
   d_v <> (d_model / num_heads)%nat ->
   MultiHeadAttention.init num_heads d_k d_v d_model g
   = Raise (AssertionError "d_v must be equal to d_model // num_heads")).
Proof.
  unfold MultiHeadAttention.init, bindI, lift, py_mod, py_floordiv.
  repeat split.
  - intros ->. reflexivity.
  - intros Hh Hm. apply Nat.eqb_neq in Hh, Hm. rewrite Hh. simpl.
    rewrite Hm. reflexivity.
  - intros Hh Hm Hk. apply Nat.eqb_neq in Hh, Hk. rewrite Hh. simpl.
    rewrite Hm. simpl. rewrite Hk. reflexivity.
  - intros Hh Hm Hk Hv. apply Nat.eqb_neq in Hh, Hv. rewrite Hh. simpl.
    rewrite Hm. simpl. rewrite Hk, Nat.eqb_refl. simpl. rewrite Hv.
    reflexivity.
Qed.

(** C3.  [MultiHeadAttention(num_heads, d_k, d_v, d_model)] succeeds
    exactly when [d_model] is evenly divisible by [num_heads] and both
    [d_k] and [d_v] equal [d_model // num_heads]; in every other case it
    raises a configuration error (a failed assertion, or the
    ZeroDivisionError of [d_model % 0] when [num_heads] is 0).  With
    [d_model = 512], 7 heads fail whatever [d_k] and [d_v] are, and 8 heads
    with [d_k = d_v = 64] succeed. *)
Theorem MultiHeadAttention_init_configuration :
  (forall (num_heads d_k d_v d_model : nat) (g : Generator),
     match MultiHeadAttention.init num_heads d_k d_v d_model g with
     | Ok (m, _) =>
         num_heads <> 0%nat /\ (d_model mod num_heads = 0)%nat /\
         d_k = (d_model / num_heads)%nat /\ d_v = (d_model / num_heads)%nat /\
         MultiHeadAttention_wf m num_heads d_k d_v d_model
     | Raise e =>
         configuration_error e = true /\
         (num_heads = 0%nat \/ (d_model mod num_heads)%nat <> 0%nat \/
          d_k <> (d_model / num_heads)%nat \/
          d_v <> (d_model / num_heads)%nat)
     end) /\
  (forall (d_k d_v : nat) (g : Generator),
     MultiHeadAttention.init 7 d_k d_v 512 g
     = Raise (AssertionError "d_model must be divisible by num_heads")) /\
  (forall g : Generator,
     is_ok (MultiHeadAttention.init 8 64 64 512 g) = true).
Proof.
  split; [|split].
  - intros num_heads d_k d_v d_model g.
    destruct (MultiHeadAttention_init_Raise num_heads d_k d_v d_model g)
      as (R0 & R1 & R2 & R3).
    destruct (Nat.eq_dec num_heads 0) as [Hh|Hh].
    { rewrite (R0 Hh). simpl. auto. }
    destruct (Nat.eq_dec (d_model mod num_heads) 0) as [Hm|Hm].
    2:{ rewrite (R1 Hh Hm). simpl. auto. }
    destruct (Nat.eq_dec d_k (d_model / num_heads)) as [Hk|Hk].
    2:{ rewrite (R2 Hh Hm Hk). simpl. auto. }
    destruct (Nat.eq_dec d_v (d_model / num_heads)) as [Hv|Hv].
    2:{ rewrite (R3 Hh Hm Hk Hv). simpl. auto 6. }
    destruct (MultiHeadAttention_init_Ok _ _ _ _ g Hh Hm Hk Hv) as (m & g' & E & W).
    rewrite E. auto 6.
  - intros d_k d_v g.
    apply (MultiHeadAttention_init_Raise 7 d_k d_v 512 g).
    + discriminate.
    + vm_compute. discriminate.
  - intros g.
    destruct (MultiHeadAttention_init_Ok 8 64 64 512 g)
      as (m & g' & E & _);
      [discriminate | reflexivity | reflexivity | reflexivity |].
    rewrite E. reflexivity.
Qed.

Lemma FeedForward_init_total (d_model : nat) (d_ff : option nat)
      (g : Generator) :
  exists m g',
    PositionWiseFeedForwardNetwork.init d_model d_ff g = Ok (m, g') /\
    FeedForward_wf m d_model
      (match d_ff with
       | Some n => n
       | None => PositionWiseFeedForwardNetwork.d_ff_default
       end).
Proof.
  unfold PositionWiseFeedForwardNetwork.init.
  set (n := match d_ff with
            | Some n => n
            | None => PositionWiseFeedForwardNetwork.d_ff_default
            end).
  destruct (Linear_init_total d_model n true g) as (l1 & g1 & E1 & W1).
  destruct (Linear_init_total n d_model true g1) as (l2 & g2 & E2 & W2).
  exists {| PositionWiseFeedForwardNetwork.linear_1 := l1;
            PositionWiseFeedForwardNetwork.linear_2 := l2 |}, g2.
  rewrite (bindI_Ok _ E1), (bindI_Ok _ E2).
  split; [reflexivity | constructor; assumption].
Qed.

Lemma EncoderLayer_init_Raise (num_heads d_k d_v d_model : nat)
      (g : Generator) (e : exception) :
  MultiHeadAttention.init num_heads d_k d_v d_model g = Raise e ->
  EncoderLayer.init num_heads d_k d_v d_model g = Raise e.
Proof.
  intros H. unfold EncoderLayer.init. apply (bindI_Raise _ H).
Qed.

Lemma EncoderLayer_init_Ok (num_heads d_k d_v d_model : nat)
      (g : Generator) :
  num_heads <> 0%nat ->
  (d_model mod num_heads = 0)%nat ->
  d_k = (d_model / num_heads)%nat ->
  d_v = (d_model / num_heads)%nat ->
  exists layer g',
    EncoderLayer.init num_heads d_k d_v d_model g = Ok (layer, g') /\
    EncoderLayer_wf layer num_heads d_k d_v d_model.
Proof.
  intros Hh Hm Hk Hv. unfold EncoderLayer.init.
  destruct (MultiHeadAttention_init_Ok _ _ _ _ g Hh Hm Hk Hv) as (m & g1 & E1 & W1).
  rewrite (bindI_Ok _ E1).
  unfold LayerNorm.init at 1. unfold bindI at 1. unfold ret at 1.
  destruct (FeedForward_init_total d_model (Some 2048%nat) g1)
    as (f & g2 & E2 & W2).
  rewrite (bindI_Ok _ E2).
  eexists. eexists. split; [reflexivity|].
  constructor; simpl; auto.
Qed.

Lemma TransformerEncoder_init_Raise
      (n num_heads sequence_length d_model : nat)
      (g : Generator) (e : exception) :
  MultiHeadAttention.init num_heads sequence_length sequence_length d_model g
  = Raise e ->
  TransformerEncoder.init (S n) num_heads sequence_length d_model g = Raise e.
Proof.
  intros H. unfold TransformerEncoder.init, range. simpl.
  apply bindI_Raise. apply bindI_Raise.
  apply EncoderLayer_init_Raise. exact H.
Qed.

(** A valid configuration builds [num_layers] layers, each by its own
    call of the layer constructor. *)
Lemma TransformerEncoder_init_Ok
      (num_layers num_heads sequence_length d_model : nat) (g : Generator) :
  num_heads <> 0%nat ->
  (d_model mod num_heads = 0)%nat ->
  sequence_length = (d_model / num_heads)%nat ->
  exists enc g',
    TransformerEncoder.init num_layers num_heads sequence_length d_model g
    = Ok (enc, g') /\
    List.length (TransformerEncoder.layers enc) = num_layers /\
    Forall (fun layer => EncoderLayer_wf layer num_heads sequence_length
                                         sequence_length d_model)
           (TransformerEncoder.layers enc).
Proof.
  intros Hh Hm Hs. unfold TransformerEncoder.init.
  destruct (mapI_total
              (fun _ : nat => EncoderLayer.init num_heads sequence_length
                                                sequence_length d_model)
              (fun layer => EncoderLayer_wf layer num_heads sequence_length
                                            sequence_length d_model)
              (fun _ g0 => EncoderLayer_init_Ok _ _ _ _ g0 Hh Hm Hs Hs)
              (range num_layers) g) as (ls & g' & E & L & W).
  rewrite (bindI_Ok _ E). eexists. eexists.
  split; [reflexivity|]. simpl. rewrite range_length in L. auto.
Qed.

Lemma mapI_built {A B : Type} (f : Init B) (l : list A) :
  forall g bs g',
    mapI (fun _ => f) l g = Ok (bs, g') ->
    List.length bs = List.length l /\ built f bs g g'.
Proof.
  induction l as [|a l IH]; intros g bs g' H; simpl in H.
  - unfold ret in H. injection H as <- <-. split; constructor.
  - unfold bindI in H. destruct (f g) as [[b g1]|e] eqn:Eb; [|discriminate].
    destruct (mapI (fun _ : A => f) l g1) as [[bs1 g2]|e] eqn:Ebs;
      [|discriminate].
    unfold ret in H. injection H as <- <-.
    destruct (IH g1 bs1 g2 Ebs) as (Hlen & Hb).
    split; [simpl; congruence|].
    apply (built_cons f b bs1 g g1 g2 Eb Hb).
Qed.

Lemma TransformerEncoder_init_built
      (num_layers num_heads sequence_length d_model : nat)
      (g : Generator) (enc : TransformerEncoder.t) (g' : Generator) :
  TransformerEncoder.init num_layers num_heads sequence_length d_model g
  = Ok (enc, g') ->
  List.length (TransformerEncoder.layers enc) = num_layers /\
  built (EncoderLayer.init num_heads sequence_length sequence_length d_model)
        (TransformerEncoder.layers enc) g g'.
Proof.
  unfold TransformerEncoder.init, bindI. intros H.
  destruct (mapI _ (range num_layers) g) as [[ls g1]|e] eqn:E;
    [|discriminate].
  unfold ret in H. injection H as <- <-. simpl.
  destruct (mapI_built _ _ _ _ _ E) as (Hlen & Hb).
  rewrite range_length in Hlen. auto.
Qed.

(** C2 (as amended: at least one layer).  With [num_layers >= 1],
    [TransformerEncoder(num_layers, num_heads, sequence_length, d_model)]
    succeeds only when [d_model] is divisible by [num_heads] and
    [sequence_length = d_model // num_heads]; when [d_model] is divisible
    by [num_heads] and [sequence_length] differs from
    [d_model // num_heads], it raises the assertion error of [d_k].  With
    [num_layers = 0] no layer is built and the construction succeeds for
    every [num_heads], [sequence_length] and [d_model], leaving the
    generator as it was. *)
Theorem TransformerEncoder_init_sequence_length
        (num_layers num_heads sequence_length d_model : nat) (g : Generator) :
  TransformerEncoder.init 0 num_heads sequence_length d_model g
  = Ok ({| TransformerEncoder.layers := [] |}, g) /\
  ((1 <= num_layers)%nat ->
   match TransformerEncoder.init num_layers num_heads sequence_length
                                 d_model g with
   | Ok _ =>
       num_heads <> 0%nat /\ (d_model mod num_heads = 0)%nat /\
       sequence_length = (d_model / num_heads)%nat
   | Raise e =>
       (num_heads = 0%nat /\ e = ZeroDivisionError) \/
       (num_heads <> 0%nat /\ (d_model mod num_heads)%nat <> 0%nat /\
        e = AssertionError "d_model must be divisible by num_heads") \/
       (num_heads <> 0%nat /\ (d_model mod num_heads = 0)%nat /\
        sequence_length <> (d_model / num_heads)%nat /\
        e = AssertionError "d_k must be equal to d_model // num_heads")
   end).
Proof.
  split; [reflexivity|].
  intros HN. destruct num_layers as [|n]; [lia|].
  destruct (MultiHeadAttention_init_Raise num_heads sequence_length
              sequence_length d_model g) as (R0 & R1 & R2 & _).
  destruct (Nat.eq_dec num_heads 0) as [Hh|Hh].
  { rewrite (TransformerEncoder_init_Raise n _ _ _ _ _ (R0 Hh)). auto. }
  destruct (Nat.eq_dec (d_model mod num_heads) 0) as [Hm|Hm].
  2:{ rewrite (TransformerEncoder_init_Raise n _ _ _ _ _ (R1 Hh Hm)). auto. }
  destruct (Nat.eq_dec sequence_length (d_model / num_heads)) as [Hs|Hs].
  2:{ rewrite (TransformerEncoder_init_Raise n _ _ _ _ _ (R2 Hh Hm Hs)). auto 6. }
  destruct (TransformerEncoder_init_Ok (S n) _ _ _ g Hh Hm Hs)
    as (enc & g' & E & _).
  rewrite E. auto.
Qed.

(** The notebook's smoke test passes 64 = 512 // 8 and succeeds; with the
    length 20 of the sequences it would not, unless no layer is asked
    for. *)
Lemma TransformerEncoder_init_sequence_length_witness :
  (1 <= 6)%nat /\
  TransformerEncoder.init 0 8 20 512 counting
  = Ok ({| TransformerEncoder.layers := [] |}, counting) /\
  match TransformerEncoder.init 6 8 20 512 counting with
  | Ok _ =>
      8%nat <> 0%nat /\ (512 mod 8 = 0)%nat /\ 20%nat = (512 / 8)%nat
  | Raise e =>
      (8%nat = 0%nat /\ e = ZeroDivisionError) \/
      (8%nat <> 0%nat /\ (512 mod 8)%nat <> 0%nat /\
       e = AssertionError "d_model must be divisible by num_heads") \/
      (8%nat <> 0%nat /\ (512 mod 8 = 0)%nat /\
       20%nat <> (512 / 8)%nat /\
       e = AssertionError "d_k must be equal to d_model // num_heads")
  end.
Proof.
  assert (H : (1 <= 6)%nat) by apply Nat.lt_0_succ.
  destruct (TransformerEncoder_init_sequence_length 6 8 20 512 counting)
    as [H0 H1].
  split; [exact H|]. split; [exact H0 | exact (H1 H)].
Defined.

(** C2 as stated fails without layers: [range(0)] is empty, no
    [MultiHeadAttention] is built and no assertion is evaluated, so the
    construction succeeds although 20 is not 512 // 8. *)
Lemma TransformerEncoder_init_no_layers :
  (512 mod 8 = 0)%nat /\ 20%nat <> (512 / 8)%nat /\
  TransformerEncoder.init 0 8 20 512 counting
  = Ok ({| TransformerEncoder.layers := [] |}, counting).
Proof.
  split; [reflexivity|]. split; [vm_compute; discriminate | reflexivity].
Qed.

(** ** Shapes of the forward computations *)

Lemma shape_inv (t : Tensor3) (a b c : nat) :
  shape t = (a, b, c) -> dim0 t = a /\ dim1 t = b /\ dim2 t = c.
Proof. unfold shape. intros H. injection H as -> -> ->. auto. Qed.

Lemma Linear_forward_shape (m : Linear.t) (x : Tensor3) (i o : nat)
      (b : bool) :
  Linear_is m i o b -> dim2 x = i ->
  exists y, Linear.forward m x = Ok y /\ shape y = (dim0 x, dim1 x, o).
Proof.
  intros (Hi & Ho & _) Hx. unfold Linear.forward.
  rewrite Hx, Hi, Nat.eqb_refl. eexists. split; [reflexivity|].
  unfold shape. simpl. rewrite Ho. reflexivity.
Qed.

Lemma Linear_forward_get (m : Linear.t) (x y : Tensor3) :
  Linear.forward m x = Ok y ->
  forall b i o, get3 y b i o = Linear_row m (get3 x b i) o.
Proof.
  unfold Linear.forward, Linear_row.
  destruct (dim2 x =? Linear.in_features m)%nat; [|discriminate].
  intros H. injection H as <-. intros b i o. simpl.
  destruct (Linear.bias m); reflexivity.
Qed.

Lemma Linear_row_ext (m : Linear.t) (v v' : nat -> R) (o : nat) :
  (forall k, (k < Linear.in_features m)%nat -> v k = v' k) ->
  Linear_row m v o = Linear_row m v' o.
Proof.
  intros H. unfold Linear_row.
  rewrite (Rsum_ext (Linear.in_features m)
             (fun k => v k * Linear.weight m o k)
             (fun k => v' k * Linear.weight m o k)).
  - reflexivity.
  - intros k Hk. rewrite (H k Hk). reflexivity.
Qed.

Lemma ScaledDotProductAttention_forward_shape
      (attention : ScaledDotProductAttention.t) (q k v : Tensor3)
      (B Lq Lk d_k d_v : nat) :
  shape q = (B, Lq, d_k) -> shape k = (B, Lk, d_k) ->
  shape v = (B, Lk, d_v) ->
  exists out,
    ScaledDotProductAttention.forward attention q k v = Ok out /\
    shape out = (B, Lq, d_v).
Proof.
  intros Hq Hk Hv.
  apply shape_inv in Hq, Hk, Hv.
  destruct Hq as (q0 & q1 & q2), Hk as (k0 & k1 & k2), Hv as (v0 & v1 & v2).
  unfold ScaledDotProductAttention.forward,
    ScaledDotProductAttention.queries_keys_similarity_probabilities.
  rewrite bmm_Ok by (simpl; congruence). simpl.
  rewrite bmm_Ok by (simpl; congruence).
  eexists. split; [reflexivity|].
  unfold shape. simpl. congruence.
Qed.

(** ** Multi-head attention *)

Lemma mapM_combine_seq {A B : Type} (f : nat * A -> result B)
      (P : nat -> B -> Prop) (l : list A) :
  forall s : nat,
    (forall i a, nth_error l i = Some a ->
                 exists b, f ((s + i)%nat, a) = Ok b /\ P (s + i)%nat b) ->
    exists bs,
      mapM f (combine (seq s (List.length l)) l) = Ok bs /\
      List.length bs = List.length l /\
      forall i b, nth_error bs i = Some b -> P (s + i)%nat b.
Proof.
  induction l as [|a l IH]; intros s Hf.
  - exists []. simpl. repeat split; auto.
    intros i b H. destruct i; discriminate H.
  - destruct (Hf 0%nat a eq_refl) as (b & Hb & Pb).
    destruct (IH (S s)) as (bs & Hbs & Hlen & Pbs).
    { intros i a' Hi. destruct (Hf (S i) a' Hi) as (b' & Hb' & Pb').
      exists b'. rewrite Nat.add_succ_r in Hb', Pb'. auto. }
    exists (b :: bs). simpl. rewrite Nat.add_0_r in Hb. rewrite Hb, Hbs.
    repeat split; simpl; auto.
    intros i b' H. destruct i as [|i]; simpl in H.
    + injection H as <-. exact Pb.
    + rewrite Nat.add_succ_r. apply (Pbs i b' H).
Qed.

Lemma mapM_enumerate {A B : Type} (f : nat * A -> result B)
      (P : nat -> B -> Prop) (l : list A) :
  (forall i a, nth_error l i = Some a ->
               exists b, f (i, a) = Ok b /\ P i b) ->
  exists bs,
    mapM f (enumerate l) = Ok bs /\
    List.length bs = List.length l /\
    forall i b, nth_error bs i = Some b -> P i b.
Proof.
  intros Hf. apply (mapM_combine_seq f P l 0%nat). exact Hf.
Qed.

Lemma nth_error_lt {A : Type} (l : list A) (i : nat) :
  (i < List.length l)%nat -> exists a, nth_error l i = Some a.
Proof.
  intros H. destruct (nth_error l i) as [a|] eqn:E.
  - exists a. reflexivity.
  - apply nth_error_None in E. lia.
Qed.

Lemma Forall_nth_error {A : Type} (P : A -> Prop) (l : list A) (i : nat)
      (a : A) :
  Forall P l -> nth_error l i = Some a -> P a.
Proof.
  intros HF H. rewrite Forall_forall in HF.
  apply HF. apply (nth_error_In l i H).
Qed.

(** One head: the three projections of its index, then attention. *)
Lemma MultiHeadAttention_head_Ok (self : MultiHeadAttention.t)
      (num_heads d_k d_v d_model : nat) (queries keys values : Tensor3)
      (B L : nat) (h : nat) (attention : ScaledDotProductAttention.t) :
  MultiHeadAttention_wf self num_heads d_k d_v d_model ->
  shape queries = (B, L, d_model) -> shape keys = (B, L, d_model) ->
  shape values = (B, L, d_model) ->
  (h < num_heads)%nat ->
  exists hd,
    MultiHeadAttention.head self queries keys values (h, attention) = Ok hd /\
    is_head self d_model d_k d_v queries keys values h hd /\
    shape hd = (B, L, d_v).
Proof.
  intros W Hq Hk Hv Hh. destruct W.
  apply shape_inv in Hq, Hk, Hv.
  destruct Hq as (q0 & q1 & q2), Hk as (k0 & k1 & k2), Hv as (v0 & v1 & v2).
  destruct (nth_error_lt (MultiHeadAttention.queries_projections self) h)
    as (wq & Ewq); [lia|].
  destruct (nth_error_lt (MultiHeadAttention.keys_projections self) h)
    as (wk & Ewk); [lia|].
  destruct (nth_error_lt (MultiHeadAttention.values_projections self) h)
    as (wv & Ewv); [lia|].
  pose proof (Forall_nth_error _ _ _ _ wf_queries0 Ewq) as Pq.
  pose proof (Forall_nth_error _ _ _ _ wf_keys0 Ewk) as Pk.
  pose proof (Forall_nth_error _ _ _ _ wf_values0 Ewv) as Pv.
  destruct (Linear_forward_shape wq queries _ _ _ Pq q2) as (q & Eq & Sq).
  destruct (Linear_forward_shape wk keys _ _ _ Pk k2) as (k & Ek & Sk).
  destruct (Linear_forward_shape wv values _ _ _ Pv v2) as (v & Ev & Sv).
  rewrite q0, q1 in Sq. rewrite k0, k1 in Sk. rewrite v0, v1 in Sv.
  destruct (ScaledDotProductAttention_forward_shape
              ScaledDotProductAttention.Build q k v _ _ _ _ _ Sq Sk Sv)
    as (hd & Ehd & Shd).
  exists hd. split; [|split].
  - unfold MultiHeadAttention.head, getitem.
    rewrite Ewq. simpl. rewrite Eq. simpl.
    rewrite Ewk. simpl. rewrite Ek. simpl.
    rewrite Ewv. simpl. rewrite Ev. simpl.
    destruct attention. exact Ehd.
  - exists wq, wk, wv, q, k, v. repeat split; try assumption;
      try apply Pq; try apply Pk; try apply Pv.
  - exact Shd.
Qed.

(** The comprehension builds one head per index, in index order. *)
Lemma MultiHeadAttention_heads_Ok (self : MultiHeadAttention.t)
      (num_heads d_k d_v d_model : nat) (queries keys values : Tensor3)
      (B L : nat) :
  MultiHeadAttention_wf self num_heads d_k d_v d_model ->
  shape queries = (B, L, d_model) -> shape keys = (B, L, d_model) ->
  shape values = (B, L, d_model) ->
  exists heads,
    mapM (MultiHeadAttention.head self queries keys values)
         (enumerate (MultiHeadAttention.attentions self)) = Ok heads /\
    List.length heads = num_heads /\
    forall h hd, nth_error heads h = Some hd ->
                 is_head self d_model d_k d_v queries keys values h hd /\
                 shape hd = (B, L, d_v).
Proof.
  intros W Hq Hk Hv.
  destruct (mapM_enumerate
              (MultiHeadAttention.head self queries keys values)
              (fun h hd =>
                 is_head self d_model d_k d_v queries keys values h hd /\
                 shape hd = (B, L, d_v))
              (MultiHeadAttention.attentions self)) as (heads & E & Len & P).
  - intros i a Hi.
    assert (Hlt : (i < num_heads)%nat).
    { rewrite <- (wf_attentions_length _ _ _ _ _ W).
      apply nth_error_Some. rewrite Hi. discriminate. }
    destruct (MultiHeadAttention_head_Ok self _ _ _ _ _ _ _ B L i a
                W Hq Hk Hv Hlt) as (hd & Ehd & Phd).
    exists hd. auto.
  - exists heads. rewrite (wf_attentions_length _ _ _ _ _ W) in Len. auto.
Qed.

Lemma list_sum_dim2 (ts : list Tensor3) (d : nat) :
  (forall t, In t ts -> dim2 t = d) ->
  list_sum (map dim2 ts) = (List.length ts * d)%nat.
Proof.
  induction ts as [|t ts IH]; intros H; simpl.
  - reflexivity.
  - rewrite IH by (intros u Hu; apply H; right; exact Hu).
    rewrite (H t) by (left; reflexivity). reflexivity.
Qed.

(** Concatenation lays the tensors out in list order: the features of the
    tensor of index [h] occupy the columns [h*d .. h*d + d - 1]. *)
Lemma cat_get_nth (ts : list Tensor3) (d : nat) :
  (forall t, In t ts -> dim2 t = d) ->
  forall h hd, nth_error ts h = Some hd ->
  forall b i c, (c < d)%nat ->
                torch.cat_get ts b i (h * d + c) = get3 hd b i c.
Proof.
  induction ts as [|t ts IH]; intros Hd h hd Hh b i c Hc.
  - destruct h; discriminate Hh.
  - destruct h as [|h]; simpl in Hh.
    + injection Hh as <-. simpl.
      rewrite (Hd t) by (left; reflexivity).
      destruct (Nat.ltb_spec c d); [reflexivity | lia].
    + replace (S h * d + c)%nat with (d + (h * d + c))%nat by (simpl; lia).
      cbn [torch.cat_get].
      rewrite (Hd t) by (left; reflexivity).
      destruct (Nat.ltb_spec (d + (h * d + c)) d) as [Hlt|Hge]; [lia|].
      replace (d + (h * d + c) - d)%nat with (h * d + c)%nat by lia.
      apply IH; auto. intros u Hu. apply Hd. right. exact Hu.
Qed.

Lemma cat_dim2_Ok (ts : list Tensor3) (B L d : nat) :
  ts <> [] ->
  (forall t, In t ts -> shape t = (B, L, d)) ->
  exists hc,
    torch.cat_dim2 ts = Ok hc /\
    shape hc = (B, L, (List.length ts * d)%nat) /\
    forall h hd, nth_error ts h = Some hd ->
    forall b i c, (c < d)%nat -> get3 hc b i (h * d + c) = get3 hd b i c.
Proof.
  intros Hne Hs.
  assert (Hd : forall t, In t ts -> dim2 t = d).
  { intros t Ht. apply (shape_inv t B L d (Hs t Ht)). }
  destruct ts as [|t ts']; [contradiction Hne; reflexivity|].
  unfold torch.cat_dim2.
  assert (Hall : forallb (fun u => (dim0 u =? dim0 t)%nat &&
                                   (dim1 u =? dim1 t)%nat) ts' = true).
  { apply forallb_forall. intros u Hu.
    destruct (shape_inv u B L d (Hs u (or_intror Hu))) as (u0 & u1 & _).
    destruct (shape_inv t B L d (Hs t (or_introl eq_refl))) as (t0 & t1 & _).
    rewrite u0, u1, t0, t1, !Nat.eqb_refl. reflexivity. }
  rewrite Hall. eexists. split; [reflexivity|]. split.
  - destruct (shape_inv t B L d (Hs t (or_introl eq_refl))) as (t0 & t1 & _).
    unfold shape. cbn [dim0 dim1 dim2].
    rewrite (list_sum_dim2 (t :: ts') d Hd), t0, t1. reflexivity.
  - intros h hd Hh b i c Hc. cbn [get3].
    apply (cat_get_nth (t :: ts') d Hd h hd Hh b i c Hc).
Qed.

(** The whole forward pass of multi-head attention. *)
Lemma MultiHeadAttention_forward_Ok (self : MultiHeadAttention.t)
      (num_heads d_k d_v d_model : nat) (queries keys values : Tensor3)
      (B L : nat) :
  MultiHeadAttention_wf self num_heads d_k d_v d_model ->
  shape queries = (B, L, d_model) -> shape keys = (B, L, d_model) ->
  shape values = (B, L, d_model) ->
  exists heads heads_concatenated out,
    List.length heads = num_heads /\
    (forall h hd, nth_error heads h = Some hd ->
                  is_head self d_model d_k d_v queries keys values h hd /\
                  shape hd = (B, L, d_v)) /\
    torch.cat_dim2 heads = Ok heads_concatenated /\
    shape heads_concatenated = (B, L, (num_heads * d_v)%nat) /\
    (forall h hd, nth_error heads h = Some hd ->
     forall b i c, (c < d_v)%nat ->
       get3 heads_concatenated b i (h * d_v + c) = get3 hd b i c) /\
    Linear_is (MultiHeadAttention.multi_head_linear self)
              (num_heads * d_v) d_model true /\
    Linear.forward (MultiHeadAttention.multi_head_linear self)
                   heads_concatenated = Ok out /\
    MultiHeadAttention.forward self queries keys values = Ok out /\
    shape out = (B, L, d_model).
Proof.
  intros W Hq Hk Hv.
  destruct (MultiHeadAttention_heads_Ok self _ _ _ _ _ _ _ B L W Hq Hk Hv)
    as (heads & Eh & Len & Ph).
  assert (Hne : heads <> []).
  { intros ->. simpl in Len. pose proof (wf_num_heads _ _ _ _ _ W). lia. }
  assert (Hs : forall t, In t heads -> shape t = (B, L, d_v)).
  { intros t Ht. destruct (In_nth_error heads t Ht) as (h & Hh).
    apply (Ph h t Hh). }
  destruct (cat_dim2_Ok heads B L d_v Hne Hs) as (hc & Ec & Sc & Gc).
  rewrite Len in Sc.
  destruct (shape_inv hc _ _ _ Sc) as (c0 & c1 & c2).
  destruct (Linear_forward_shape _ hc _ _ _
              (wf_multi_head_linear _ _ _ _ _ W) c2) as (out & Eo & So).
  rewrite c0, c1 in So.
  exists heads, hc, out. repeat split; try assumption;
    try apply (Ph h hd H); try apply (wf_multi_head_linear _ _ _ _ _ W).
  unfold MultiHeadAttention.forward. rewrite Eh. simpl. rewrite Ec. simpl.
  exact Eo.
Qed.

(** C7.  On queries, keys and values of shape (B, L, D), the forward pass
    of multi-head attention computes one result per head index 0..H-1, the
    result of index h being scaled dot-product attention over the images of
    the inputs under the bias-free projections of index h (each D to d_k,
    or d_v for the values) and having shape (B, L, d_v); concatenates them
    along the feature axis in index order into shape (B, L, H * d_v), head
    h filling the columns h*d_v .. h*d_v + d_v - 1; and applies the output
    linear map, which has a bias, to return a tensor of shape (B, L, D). *)
Theorem MultiHeadAttention_forward_heads (self : MultiHeadAttention.t)
        (num_heads d_k d_v d_model : nat) (queries keys values : Tensor3)
        (B L : nat) :
  MultiHeadAttention_wf self num_heads d_k d_v d_model ->
  shape queries = (B, L, d_model) -> shape keys = (B, L, d_model) ->
  shape values = (B, L, d_model) ->
  exists heads heads_concatenated out,
    List.length heads = num_heads /\
    (forall h, (h < num_heads)%nat ->
       exists hd, nth_error heads h = Some hd /\
                  is_head self d_model d_k d_v queries keys values h hd /\
                  shape hd = (B, L, d_v) /\
                  forall b i c, (c < d_v)%nat ->
                    get3 heads_concatenated b i (h * d_v + c)
                    = get3 hd b i c) /\
    torch.cat_dim2 heads = Ok heads_concatenated /\
    shape heads_concatenated = (B, L, (num_heads * d_v)%nat) /\
    has_bias (MultiHeadAttention.multi_head_linear self) = true /\
    Linear.forward (MultiHeadAttention.multi_head_linear self)
                   heads_concatenated = Ok out /\
    MultiHeadAttention.forward self queries keys values = Ok out /\
    shape out = (B, L, d_model).
Proof.
  intros W Hq Hk Hv.
  destruct (MultiHeadAttention_forward_Ok self _ _ _ _ _ _ _ B L W Hq Hk Hv)
    as (heads & hc & out & Len & Ph & Ec & Sc & Gc & Pm & Eo & Ef & So).
  exists heads, hc, out. repeat split; try assumption.
  - intros h Hh. rewrite <- Len in Hh.
    destruct (nth_error_lt heads h Hh) as (hd & Ehd).
    exists hd. destruct (Ph h hd Ehd) as (Ih & Sh).
    repeat split; try assumption. apply (Gc h hd Ehd).
  - apply Pm.
Qed.

(** C10.  With a single head, the concatenation of the heads is the
    single head's result, and the forward pass returns what the output
    linear map returns on plain scaled dot-product attention over the
    projected queries, keys and values. *)
Theorem MultiHeadAttention_single_head (self : MultiHeadAttention.t)
        (d_k d_v d_model : nat) (queries keys values : Tensor3) (B L : nat) :
  MultiHeadAttention_wf self 1 d_k d_v d_model ->
  shape queries = (B, L, d_model) -> shape keys = (B, L, d_model) ->
  shape values = (B, L, d_model) ->
  exists hd heads_concatenated out out',
    is_head self d_model d_k d_v queries keys values 0 hd /\
    torch.cat_dim2 [hd] = Ok heads_concatenated /\
    teq heads_concatenated hd /\
    MultiHeadAttention.forward self queries keys values = Ok out /\
    Linear.forward (MultiHeadAttention.multi_head_linear self) hd = Ok out' /\
    teq out out'.
Proof.
  intros W Hq Hk Hv.
  destruct (MultiHeadAttention_forward_Ok self _ _ _ _ _ _ _ B L W Hq Hk Hv)
    as (heads & hc & out & Len & Ph & Ec & Sc & Gc & Pm & Eo & Ef & So).
  destruct heads as [|hd [|hd' heads]]; simpl in Len; try lia.
  destruct (Ph 0%nat hd eq_refl) as (Ih & Sh).
  destruct (shape_inv hd _ _ _ Sh) as (h0 & h1 & h2).
  destruct (shape_inv hc _ _ _ Sc) as (c0 & c1 & c2).
  assert (Hcols : forall b i c, (c < d_v)%nat ->
                                get3 hc b i c = get3 hd b i c).
  { intros b i c Hc. apply (Gc 0%nat hd eq_refl b i c Hc). }
  destruct (Linear_forward_shape _ hd _ _ _ Pm) as (out' & Eo' & So').
  { rewrite h2. lia. }
  exists hd, hc, out, out'. repeat split; try assumption.
  - rewrite Sc, Sh. f_equal. lia.
  - intros b i k _ _ Hk3. apply Hcols. lia.
  - rewrite So, So', h0, h1. reflexivity.
  - intros b i o _ _ _.
    rewrite (Linear_forward_get _ _ _ Eo), (Linear_forward_get _ _ _ Eo').
    apply Linear_row_ext. intros k Hk3. apply Hcols.
    destruct Pm as (Hin & _). rewrite Hin in Hk3. lia.
Qed.

(** ** Feed-forward network, encoder layer, encoder *)

Lemma LayerNorm_forward_shape (m : LayerNorm.t) (x : Tensor3) :
  dim2 x = LayerNorm.normalized_shape m ->
  exists y, LayerNorm.forward m x = Ok y /\ shape y = shape x.
Proof.
  intros H. unfold LayerNorm.forward. rewrite H, Nat.eqb_refl.
  eexists. split; [reflexivity|]. unfold shape. simpl. rewrite H. reflexivity.
Qed.

Lemma broadcast_dim_same (n : nat) : broadcast_dim n n = Some n.
Proof. unfold broadcast_dim. rewrite Nat.eqb_refl. reflexivity. Qed.

Lemma bidx_lt (m i : nat) : (i < m)%nat -> bidx m i = i.
Proof.
  intros H. unfold bidx. destruct (Nat.eqb_spec m 1); [lia | reflexivity].
Qed.

(** The sum of two tensors of one shape is the entrywise sum. *)
Lemma add_same_shape (x y : Tensor3) :
  shape x = shape y ->
  exists z,
    torch.add x y = Ok z /\ shape z = shape x /\
    forall b i k, (b < dim0 x)%nat -> (i < dim1 x)%nat -> (k < dim2 x)%nat ->
                  get3 z b i k = get3 x b i k + get3 y b i k.
Proof.
  intros H. unfold shape in H. injection H as H0 H1 H2.
  unfold torch.add. rewrite <- H0, <- H1, <- H2, !broadcast_dim_same.
  eexists. split; [reflexivity|]. split; [reflexivity|].
  intros b i k Hb Hi Hk. simpl. rewrite !bidx_lt by assumption. reflexivity.
Qed.

Lemma FeedForward_forward_Ok (self : PositionWiseFeedForwardNetwork.t)
      (d_model d_ff : nat) (x : Tensor3) (B L : nat) :
  FeedForward_wf self d_model d_ff -> shape x = (B, L, d_model) ->
  exists h out,
    Linear.forward (PositionWiseFeedForwardNetwork.linear_1 self) x = Ok h /\
    shape h = (B, L, d_ff) /\
    Linear.forward (PositionWiseFeedForwardNetwork.linear_2 self)
                   (torch.map3 torch.relu h) = Ok out /\
    PositionWiseFeedForwardNetwork.forward self x = Ok out /\
    shape out = (B, L, d_model).
Proof.
  intros [W1 W2] Hx. destruct (shape_inv x _ _ _ Hx) as (x0 & x1 & x2).
  destruct (Linear_forward_shape _ x _ _ _ W1 x2) as (h & Eh & Sh).
  rewrite x0, x1 in Sh. destruct (shape_inv h _ _ _ Sh) as (h0 & h1 & h2).
  destruct (Linear_forward_shape _ (torch.map3 torch.relu h) _ _ _ W2 h2)
    as (out & Eo & So).
  simpl in So. rewrite h0, h1 in So.
  exists h, out. repeat split; try assumption.
  unfold PositionWiseFeedForwardNetwork.forward. rewrite Eh. exact Eo.
Qed.

(** The output row of the feed-forward network at a position is a function
    of the input row at that position. *)
Lemma FeedForward_forward_row (self : PositionWiseFeedForwardNetwork.t)
      (x out x' out' : Tensor3) (b i b' i' : nat) :
  PositionWiseFeedForwardNetwork.forward self x = Ok out ->
  PositionWiseFeedForwardNetwork.forward self x' = Ok out' ->
  (forall k,
     (k < Linear.in_features
            (PositionWiseFeedForwardNetwork.linear_1 self))%nat ->
     get3 x b i k = get3 x' b' i' k) ->
  forall o, get3 out b i o = get3 out' b' i' o.
Proof.
  unfold PositionWiseFeedForwardNetwork.forward. intros E E' Hrow o.
  apply bind_Ok in E. destruct E as (h & Eh & Eo).
  apply bind_Ok in E'. destruct E' as (h' & Eh' & Eo').
  rewrite (Linear_forward_get _ _ _ Eo), (Linear_forward_get _ _ _ Eo').
  apply Linear_row_ext. intros k _. simpl.
  rewrite (Linear_forward_get _ _ _ Eh), (Linear_forward_get _ _ _ Eh').
  f_equal. apply Linear_row_ext. exact Hrow.
Qed.

(** C9.  On an input of shape (B, L, D) the feed-forward network returns
    Linear2(ReLU(Linear1(x))), where Linear1 maps D features to d_ff and
    Linear2 maps d_ff features back to D, both with a bias; the result has
    shape (B, L, D), and its row at a (batch, position) pair is determined
    by the input row at that pair alone: equal input rows, wherever they
    sit, give equal output rows.  Built without the keyword argument, the
    network has d_ff = 2048. *)
Theorem FeedForward_forward_positionwise
        (self : PositionWiseFeedForwardNetwork.t) (d_model d_ff : nat)
        (x : Tensor3) (B L : nat) :
  FeedForward_wf self d_model d_ff -> shape x = (B, L, d_model) ->
  exists h out,
    Linear.forward (PositionWiseFeedForwardNetwork.linear_1 self) x = Ok h /\
    shape h = (B, L, d_ff) /\
    Linear.forward (PositionWiseFeedForwardNetwork.linear_2 self)
                   (torch.map3 torch.relu h) = Ok out /\
    PositionWiseFeedForwardNetwork.forward self x = Ok out /\
    shape out = (B, L, d_model) /\
    has_bias (PositionWiseFeedForwardNetwork.linear_1 self) = true /\
    has_bias (PositionWiseFeedForwardNetwork.linear_2 self) = true /\
    (forall (x' out' : Tensor3) (b i b' i' : nat),
        PositionWiseFeedForwardNetwork.forward self x' = Ok out' ->
        (forall k, (k < d_model)%nat -> get3 x b i k = get3 x' b' i' k) ->
        forall o, get3 out b i o = get3 out' b' i' o) /\
    (forall g : Generator,
        exists m g',
          PositionWiseFeedForwardNetwork.init d_model None g = Ok (m, g') /\
          FeedForward_wf m d_model 2048).
Proof.
  intros W Hx.
  destruct (FeedForward_forward_Ok self d_model d_ff x B L W Hx)
    as (h & out & Eh & Sh & Eo & Ef & So).
  exists h, out. repeat split; try assumption.
  - apply (wf_linear_1 _ _ _ W).
  - apply (wf_linear_2 _ _ _ W).
  - intros x' out' b i b' i' Ef' Hrow o.
    apply (FeedForward_forward_row self x out x' out' b i b' i' Ef Ef').
    destruct (wf_linear_1 _ _ _ W) as (Hin & _). rewrite Hin. exact Hrow.
  - intros g. apply (FeedForward_init_total d_model None g).
Qed.

Lemma EncoderLayer_forward_Ok (self : EncoderLayer.t)
      (num_heads d_k d_v d_model : nat) (x : Tensor3) (B L : nat) :
  EncoderLayer_wf self num_heads d_k d_v d_model ->
  shape x = (B, L, d_model) ->
  exists a x1 x2 f x3 x4,
    MultiHeadAttention.forward (EncoderLayer.multi_head_attention self) x x x
    = Ok a /\
    shape a = (B, L, d_model) /\
    torch.add x a = Ok x1 /\
    (forall b i k, (b < B)%nat -> (i < L)%nat -> (k < d_model)%nat ->
                   get3 x1 b i k = get3 x b i k + get3 a b i k) /\
    LayerNorm.forward (EncoderLayer.layer_normalization_1 self) x1 = Ok x2 /\
    PositionWiseFeedForwardNetwork.forward
      (EncoderLayer.position_wise_feed_forward_network self) x2 = Ok f /\
    torch.add x2 f = Ok x3 /\
    (forall b i k, (b < B)%nat -> (i < L)%nat -> (k < d_model)%nat ->
                   get3 x3 b i k = get3 x2 b i k + get3 f b i k) /\
    LayerNorm.forward (EncoderLayer.layer_normalization_2 self) x3 = Ok x4 /\
    EncoderLayer.forward self x = Ok x4 /\
    shape x4 = (B, L, d_model).
Proof.
  intros [Wa Wn1 Wf Wn2] Hx.
  destruct (shape_inv x _ _ _ Hx) as (x_0 & x_1 & x_2).
  destruct (MultiHeadAttention_forward_Ok _ _ _ _ _ x x x B L Wa Hx Hx Hx)
    as (hs & hc & a & _ & _ & _ & _ & _ & _ & _ & Ea & Sa).
  destruct (add_same_shape x a) as (x1 & E1 & S1 & G1); [congruence|].
  rewrite Hx in S1. destruct (shape_inv x1 _ _ _ S1) as (_ & _ & d1).
  destruct (LayerNorm_forward_shape
              (EncoderLayer.layer_normalization_1 self) x1)
    as (x2 & E2 & S2); [congruence|].
  rewrite S1 in S2.
  destruct (FeedForward_forward_Ok _ _ _ x2 B L Wf S2)
    as (h & f & _ & _ & _ & Ef & Sf).
  destruct (add_same_shape x2 f) as (x3 & E3 & S3 & G3); [congruence|].
  rewrite S2 in S3. destruct (shape_inv x3 _ _ _ S3) as (_ & _ & d3).
  destruct (LayerNorm_forward_shape
              (EncoderLayer.layer_normalization_2 self) x3)
    as (x4 & E4 & S4); [congruence|].
  rewrite S3 in S4.
  destruct (shape_inv x2 _ _ _ S2) as (x2_0 & x2_1 & x2_2).
  exists a, x1, x2, f, x3, x4. repeat split; try assumption.
  - intros b i k Hb Hi Hk. apply G1; lia.
  - intros b i k Hb Hi Hk. apply G3; lia.
  - unfold EncoderLayer.forward.
    rewrite Ea. simpl. rewrite E1. simpl. rewrite E2. simpl.
    rewrite Ef. simpl. rewrite E3. simpl. rewrite E4. reflexivity.
Qed.

(** C4.  On an input x of shape (B, L, D), the forward pass of an encoder
    layer is the post-norm composition: a = MultiHeadAttention(x, x, x)
    (queries, keys and values are all x), x1 = x + a, x2 = LayerNorm1(x1),
    f = FeedForward(x2), x3 = x2 + f, x4 = LayerNorm2(x3); every step
    succeeds and x4, of shape (B, L, D), is what is returned. *)
Theorem EncoderLayer_forward_post_norm (self : EncoderLayer.t)
        (num_heads d_k d_v d_model : nat) (x : Tensor3) (B L : nat) :
  EncoderLayer_wf self num_heads d_k d_v d_model ->
  shape x = (B, L, d_model) ->
  exists a x1 x2 f x3 x4,
    MultiHeadAttention.forward (EncoderLayer.multi_head_attention self) x x x
    = Ok a /\
    torch.add x a = Ok x1 /\
    (forall b i k, (b < B)%nat -> (i < L)%nat -> (k < d_model)%nat ->
                   get3 x1 b i k = get3 x b i k + get3 a b i k) /\
    LayerNorm.forward (EncoderLayer.layer_normalization_1 self) x1 = Ok x2 /\
    PositionWiseFeedForwardNetwork.forward
      (EncoderLayer.position_wise_feed_forward_network self) x2 = Ok f /\
    torch.add x2 f = Ok x3 /\
    (forall b i k, (b < B)%nat -> (i < L)%nat -> (k < d_model)%nat ->
                   get3 x3 b i k = get3 x2 b i k + get3 f b i k) /\
    LayerNorm.forward (EncoderLayer.layer_normalization_2 self) x3 = Ok x4 /\
    EncoderLayer.forward self x = Ok x4 /\
    shape x4 = (B, L, d_model).
Proof.
  intros W Hx.
  destruct (EncoderLayer_forward_Ok self _ _ _ _ x B L W Hx)
    as (a & x1 & x2 & f & x3 & x4 & Ea & _ & E1 & G1 & E2 & Ef & E3 & G3
        & E4 & E & S).
  exists a, x1, x2, f, x3, x4. repeat split; assumption.
Qed.

(** The loop threads the tensor through the layers, first to last. *)
Lemma TransformerEncoder_loop_feeds (num_heads d_k d_v d_model B L : nat)
      (ls : list EncoderLayer.t) :
  Forall (fun layer => EncoderLayer_wf layer num_heads d_k d_v d_model) ls ->
  forall x, shape x = (B, L, d_model) ->
  exists y, TransformerEncoder.loop ls x = Ok y /\
            shape y = (B, L, d_model) /\ feeds ls x y.
Proof.
  induction 1 as [|layer ls W _ IH]; intros x Hx.
  - exists x. simpl. repeat split; [assumption | constructor].
  - destruct (EncoderLayer_forward_Ok layer _ _ _ _ x B L W Hx)
      as (a & x1 & x2 & f & x3 & x4 & _ & _ & _ & _ & _ & _ & _ & _ & _
          & E & S).
    destruct (IH x4 S) as (y & Ey & Sy & Fy).
    exists y. simpl. rewrite E. repeat split; try assumption.
    apply (feeds_cons layer ls x x4 y E Fy).
Qed.

(** C8.  The encoder runs its layers one after the other, the output of a
    layer being the input of the next, and returns the output of the last
    one (the input itself when there is no layer): nothing is applied
    around the stack.  On an input of shape (B, L, D) every layer succeeds
    and the output has shape (B, L, D).  The constructor builds
    [num_layers] layers, each by a call of its own to the layer
    constructor. *)
Theorem TransformerEncoder_forward_sequence (self : TransformerEncoder.t)
        (num_heads d_k d_v d_model : nat) (x : Tensor3) (B L : nat) :
  Forall (fun layer => EncoderLayer_wf layer num_heads d_k d_v d_model)
         (TransformerEncoder.layers self) ->
  shape x = (B, L, d_model) ->
  exists y,
    TransformerEncoder.forward self x = Ok y /\
    shape y = (B, L, d_model) /\
    feeds (TransformerEncoder.layers self) x y /\
    (TransformerEncoder.layers self = [] -> y = x) /\
    (forall num_layers sequence_length g enc g',
        TransformerEncoder.init num_layers num_heads sequence_length
                                d_model g = Ok (enc, g') ->
        List.length (TransformerEncoder.layers enc) = num_layers /\
        built (EncoderLayer.init num_heads sequence_length sequence_length
                                 d_model)
              (TransformerEncoder.layers enc) g g').
Proof.
  intros W Hx.
  destruct (TransformerEncoder_loop_feeds _ _ _ _ B L _ W x Hx)
    as (y & Ey & Sy & Fy).
  exists y.
  split; [exact Ey|]. split; [exact Sy|]. split; [exact Fy|]. split.
  - intros Hnil. unfold TransformerEncoder.forward in Ey.
    rewrite Hnil in Ey. simpl in Ey. injection Ey as <-. reflexivity.
  - intros num_layers sequence_length g enc g' Hinit.
    apply (TransformerEncoder_init_built _ _ _ _ _ _ _ Hinit).
Qed.

(** ** Positional encoding *)

Lemma broadcast_dim_1_l (n : nat) : broadcast_dim 1 n = Some n.
Proof.
  unfold broadcast_dim. destruct (Nat.eqb_spec 1 n) as [<-|_]; reflexivity.
Qed.

Lemma broadcast_dim_1_r (n : nat) : broadcast_dim n 1 = Some n.
Proof.
  unfold broadcast_dim. destruct (n =? 1)%nat; reflexivity.
Qed.

Lemma even_double_pred (i : nat) :
  (1 <= i)%nat -> Nat.even (2 * i - 1) = false.
Proof.
  intros H. replace (2 * i - 1)%nat with (S (2 * (i - 1))) by lia.
  rewrite Nat.even_succ, Nat.odd_mul. reflexivity.
Qed.

Lemma omega_eq (d i : nat) :
  exp (INR (2 * i) * (- ln 10000 / INR d)) = omega d i.
Proof.
  unfold omega. f_equal. rewrite mult_INR. simpl. unfold Rdiv. ring.
Qed.

Lemma mul_2_1_column (a : Tensor2) (v : Tensor1) :
  cols2 a = 1%nat ->
  torch.mul_2_1 a v =
  Ok {| rows2 := rows2 a; cols2 := len1 v;
        get2 := fun p j =>
          get2 a p (bidx (cols2 a) j) * get1 v (bidx (len1 v) j) |}.
Proof.
  intros H. unfold torch.mul_2_1. rewrite H, broadcast_dim_1_l. reflexivity.
Qed.

Lemma setitem_0_all_stride2_Ok (t : Tensor3) (start : nat) (src : Tensor2) :
  dim0 t <> 0%nat -> rows2 src = dim1 t ->
  cols2 src = torch.stride2_count start (dim2 t) ->
  torch.setitem_0_all_stride2 t start src =
  Ok {| dim0 := dim0 t; dim1 := dim1 t; dim2 := dim2 t;
        get3 := fun b i k =>
          if ((b =? 0) && (start <=? k) && Nat.even (k - start))%nat%bool
          then get2 src (bidx (rows2 src) i)
                        (bidx (cols2 src) (Nat.div2 (k - start)))
          else get3 t b i k |}.
Proof.
  intros H0 Hr Hc. unfold torch.setitem_0_all_stride2.
  destruct (Nat.eqb_spec (dim0 t) 0) as [E|_]; [contradiction|].
  rewrite Hr, Hc, !Nat.eqb_refl. reflexivity.
Qed.

(** For an even, non-zero dimension the table is built, has shape
    (1, M, D), and holds sines in the even columns and cosines in the odd
    ones. *)
Lemma compute_positional_encoding_matrix_Ok (max_seq_length d_model : nat) :
  Nat.even d_model = true -> d_model <> 0%nat ->
  exists m,
    PositionalEncoding.compute_positional_encoding_matrix
      max_seq_length d_model = Ok m /\
    shape m = (1%nat, max_seq_length, d_model) /\
    forall p i, (p < max_seq_length)%nat -> (i < d_model / 2)%nat ->
      get3 m 0 p (2 * i) = sin (INR p * omega d_model i) /\
      get3 m 0 p (2 * i + 1) = cos (INR p * omega d_model i).
Proof.
  intros Hev Hnz. apply Nat.even_spec in Hev. destruct Hev as [h ->].
  assert (Hh : (1 <= h)%nat) by lia.
  unfold PositionalEncoding.compute_positional_encoding_matrix, py_truediv.
  destruct (Nat.eqb_spec (2 * h) 0) as [E|_]; [lia|].
  cbn [bind]. rewrite mul_2_1_column by reflexivity. cbn [bind].
  rewrite setitem_0_all_stride2_Ok.
  2:{ simpl. discriminate. }
  2:{ reflexivity. }
  2:{ cbn [cols2 torch.map2 len1 torch.map1 torch.mul_scalar1
           torch.arange_step2 dim2 torch.zeros].
      unfold torch.stride2_count. f_equal. lia. }
  cbn [bind].
  rewrite setitem_0_all_stride2_Ok.
  2:{ simpl. discriminate. }
  2:{ reflexivity. }
  2:{ cbn [cols2 torch.map2 len1 torch.map1 torch.mul_scalar1
           torch.arange_step2 dim2 torch.zeros].
      unfold torch.stride2_count.
      replace (2 * h + 1)%nat with (S (2 * h)) by lia.
      replace (2 * h - 1 + 1)%nat with (2 * h)%nat by lia.
      rewrite Nat.div2_succ_double, Nat.div2_double. reflexivity. }
  eexists. split; [reflexivity|]. split; [reflexivity|].
  intros p i Hp Hi.
  assert (Hi' : (i < h)%nat).
  { rewrite Nat.mul_comm, Nat.div_mul in Hi by lia. exact Hi. }
  cbn [get3 get2 get1 rows2 cols2 len1 torch.zeros torch.map2 torch.map1
       torch.mul_scalar1 torch.arange_step2 torch.unsqueeze1 torch.arange
       Nat.eqb andb].
  replace (2 * h + 1)%nat with (S (2 * h)) by lia.
  rewrite Nat.div2_succ_double.
  rewrite !(bidx_lt max_seq_length p Hp).
  split.
  - assert (Hodd : ((1 <=? 2 * i)%nat && Nat.even (2 * i - 1))%bool = false).
    { destruct (Nat.leb_spec 1 (2 * i)) as [Hle|Hlt]; [|reflexivity].
      rewrite even_double_pred by lia. reflexivity. }
    rewrite Hodd.
    replace (0 <=? 2 * i)%nat with true by (symmetry; apply Nat.leb_le; lia).
    rewrite Nat.sub_0_r, Nat.even_mul. cbn [Nat.even orb andb].
    rewrite Nat.div2_double, !(bidx_lt h i Hi'), omega_eq. reflexivity.
  - replace (1 <=? 2 * i + 1)%nat with true
      by (symmetry; apply Nat.leb_le; lia).
    replace (2 * i + 1 - 1)%nat with (2 * i)%nat by lia.
    rewrite Nat.even_mul. cbn [Nat.even orb andb].
    rewrite Nat.div2_double, !(bidx_lt h i Hi'), omega_eq. reflexivity.
Qed.

(** C5.  For an even dimension D, every position p below M and every
    feature pair index i below D / 2, the constructor succeeds and the
    table it stores, of shape (1, M, D), has
    PE[p, 2i] = sin(p * w_i) and PE[p, 2i+1] = cos(p * w_i), where
    w_i = exp(-2i * ln(10000) / D). *)
Theorem PositionalEncoding_init_entries (max_seq_length d_model p i : nat) :
  Nat.even d_model = true ->
  (p < max_seq_length)%nat -> (i < d_model / 2)%nat ->
  exists pe,
    PositionalEncoding.init max_seq_length d_model = Ok pe /\
    shape (PositionalEncoding.positional_encoding_matrix pe)
    = (1%nat, max_seq_length, d_model) /\
    get3 (PositionalEncoding.positional_encoding_matrix pe) 0 p (2 * i)
    = sin (INR p * exp (- (2 * INR i) * ln 10000 / INR d_model)) /\
    get3 (PositionalEncoding.positional_encoding_matrix pe) 0 p (2 * i + 1)
    = cos (INR p * exp (- (2 * INR i) * ln 10000 / INR d_model)).
Proof.
  intros Hev Hp Hi.
  assert (Hnz : d_model <> 0%nat).
  { intros ->. simpl in Hi. lia. }
  destruct (compute_positional_encoding_matrix_Ok max_seq_length d_model
              Hev Hnz) as (m & Em & Sm & Gm).
  exists {| PositionalEncoding.positional_encoding_matrix := m |}.
  unfold PositionalEncoding.init. rewrite Em. cbn [bind].
  split; [reflexivity|]. split; [exact Sm|].
  apply (Gm p i Hp Hi).
Qed.

Lemma PositionalEncoding_init_entries_witness :
  Nat.even 4 = true /\ (2 < 3)%nat /\ (1 < 4 / 2)%nat /\
  exists pe,
    PositionalEncoding.init 3 4 = Ok pe /\
    shape (PositionalEncoding.positional_encoding_matrix pe)
    = (1%nat, 3%nat, 4%nat) /\
    get3 (PositionalEncoding.positional_encoding_matrix pe) 0 2 (2 * 1)
    = sin (INR 2 * exp (- (2 * INR 1) * ln 10000 / INR 4)) /\
    get3 (PositionalEncoding.positional_encoding_matrix pe) 0 2 (2 * 1 + 1)
    = cos (INR 2 * exp (- (2 * INR 1) * ln 10000 / INR 4)).
Proof.
  assert (H1 : Nat.even 4 = true) by reflexivity.
  assert (H2 : (2 < 3)%nat) by (vm_compute; reflexivity).
  assert (H3 : (1 < 4 / 2)%nat) by (vm_compute; reflexivity).
  split; [exact H1|]. split; [exact H2|]. split; [exact H3|].
  apply (PositionalEncoding_init_entries 3 4 2 1 H1 H2 H3).
Defined.




(** ** The statements on the concrete modules *)

Lemma const_linear_is (i o : nat) (b : bool) (w : R) :
  Linear_is (const_linear i o b w) i o b.
Proof. unfold Linear_is, has_bias. destruct b; auto. Qed.

Lemma attention_1_wf : MultiHeadAttention_wf attention_1 1 2 2 2.
Proof.
  constructor; simpl; auto; repeat constructor.
Qed.

Lemma attention_2_wf : MultiHeadAttention_wf attention_2 2 1 1 2.
Proof.
  constructor; simpl; auto; repeat constructor.
Qed.

Lemma feed_forward_2_wf : FeedForward_wf feed_forward_2 2 2048.
Proof. constructor; apply const_linear_is. Qed.

Lemma layer_2_wf : EncoderLayer_wf layer_2 2 1 1 2.
Proof.
  constructor; [apply attention_2_wf | reflexivity
               | apply feed_forward_2_wf | reflexivity].
Qed.

Lemma MultiHeadAttention_forward_heads_witness :
  MultiHeadAttention_wf attention_2 2 1 1 2 /\
  shape input_1_3_2 = (1%nat, 3%nat, 2%nat) /\
  exists out,
    MultiHeadAttention.forward attention_2 input_1_3_2 input_1_3_2 input_1_3_2
    = Ok out /\
    shape out = (1%nat, 3%nat, 2%nat).
Proof.
  assert (H1 := attention_2_wf).
  assert (H2 : shape input_1_3_2 = (1%nat, 3%nat, 2%nat)) by reflexivity.
  split; [exact H1|]. split; [exact H2|].
  destruct (MultiHeadAttention_forward_heads attention_2 2 1 1 2
              input_1_3_2 input_1_3_2 input_1_3_2 1 3 H1 H2 H2 H2)
    as (heads & hc & out & _ & _ & _ & _ & _ & _ & E & S).
  exists out. split; [exact E | exact S].
Defined.

Lemma MultiHeadAttention_single_head_witness :
  MultiHeadAttention_wf attention_1 1 2 2 2 /\
  shape input_1_3_2 = (1%nat, 3%nat, 2%nat) /\
  exists hd out out',
    is_head attention_1 2 2 2 input_1_3_2 input_1_3_2 input_1_3_2 0 hd /\
    MultiHeadAttention.forward attention_1 input_1_3_2 input_1_3_2 input_1_3_2
    = Ok out /\
    Linear.forward (MultiHeadAttention.multi_head_linear attention_1) hd
    = Ok out' /\
    teq out out'.
Proof.
  assert (H1 := attention_1_wf).
  assert (H2 : shape input_1_3_2 = (1%nat, 3%nat, 2%nat)) by reflexivity.
  split; [exact H1|]. split; [exact H2|].
  destruct (MultiHeadAttention_single_head attention_1 2 2 2
              input_1_3_2 input_1_3_2 input_1_3_2 1 3 H1 H2 H2 H2)
    as (hd & hc & out & out' & Ih & _ & _ & E & E' & T).
  exists hd, out, out'. auto.
Defined.

Lemma FeedForward_forward_positionwise_witness :
  FeedForward_wf feed_forward_2 2 2048 /\
  shape input_1_3_2 = (1%nat, 3%nat, 2%nat) /\
  exists out,
    PositionWiseFeedForwardNetwork.forward feed_forward_2 input_1_3_2
    = Ok out /\
    shape out = (1%nat, 3%nat, 2%nat).
Proof.
  assert (H1 := feed_forward_2_wf).
  assert (H2 : shape input_1_3_2 = (1%nat, 3%nat, 2%nat)) by reflexivity.
  split; [exact H1|]. split; [exact H2|].
  destruct (FeedForward_forward_positionwise feed_forward_2 2 2048
              input_1_3_2 1 3 H1 H2)
    as (h & out & _ & _ & _ & E & S & _).
  exists out. split; [exact E | exact S].
Defined.

Lemma EncoderLayer_forward_post_norm_witness :
  EncoderLayer_wf layer_2 2 1 1 2 /\
  shape input_1_3_2 = (1%nat, 3%nat, 2%nat) /\
  exists x4,
    EncoderLayer.forward layer_2 input_1_3_2 = Ok x4 /\
    shape x4 = (1%nat, 3%nat, 2%nat).
Proof.
  assert (H1 := layer_2_wf).
  assert (H2 : shape input_1_3_2 = (1%nat, 3%nat, 2%nat)) by reflexivity.
  split; [exact H1|]. split; [exact H2|].
  destruct (EncoderLayer_forward_post_norm layer_2 2 1 1 2
              input_1_3_2 1 3 H1 H2)
    as (a & x1 & x2 & f & x3 & x4 & _ & _ & _ & _ & _ & _ & _ & _ & E & S).
  exists x4. split; [exact E | exact S].
Defined.

Lemma TransformerEncoder_forward_sequence_witness :
  Forall (fun layer => EncoderLayer_wf layer 2 1 1 2)
         (TransformerEncoder.layers encoder_2) /\
  shape input_1_3_2 = (1%nat, 3%nat, 2%nat) /\
  exists y,
    TransformerEncoder.forward encoder_2 input_1_3_2 = Ok y /\
    shape y = (1%nat, 3%nat, 2%nat) /\
    feeds (TransformerEncoder.layers encoder_2) input_1_3_2 y.
Proof.
  assert (H1 : Forall (fun layer => EncoderLayer_wf layer 2 1 1 2)
                      (TransformerEncoder.layers encoder_2)).
  { repeat constructor; apply layer_2_wf. }
  assert (H2 : shape input_1_3_2 = (1%nat, 3%nat, 2%nat)) by reflexivity.
  split; [exact H1|]. split; [exact H2|].
  destruct (TransformerEncoder_forward_sequence encoder_2 2 1 1 2
              input_1_3_2 1 3 H1 H2) as (y & E & S & F & _).
  exists y. auto.
Defined.

(** ** The notebook's smoke tests *)

(** [EncoderLayer(num_heads=8, d_k=64, d_v=64, d_model=512)] on an input of
    shape (2, 3, 512) returns a tensor of shape (2, 3, 512). *)
Lemma smoke_test_EncoderLayer (g : Generator) (x : Tensor3) :
  shape x = (2%nat, 3%nat, 512%nat) ->
  exists layer g' y,
    EncoderLayer.init 8 64 64 512 g = Ok (layer, g') /\
    EncoderLayer.forward layer x = Ok y /\
    shape y = (2%nat, 3%nat, 512%nat).
Proof.
  intros Hx.
  destruct (EncoderLayer_init_Ok 8 64 64 512 g) as (layer & g' & E & W);
    [discriminate | reflexivity | reflexivity | reflexivity |].
  destruct (EncoderLayer_forward_Ok layer _ _ _ _ x 2 3 W Hx)
    as (a & x1 & x2 & f & x3 & x4 & _ & _ & _ & _ & _ & _ & _ & _ & _
        & Ey & Sy).
  exists layer, g', x4. auto.
Qed.

(** [TransformerEncoder(num_layers=6, num_heads=8, sequence_length=64,
    d_model=512)] on an input of shape (2, 3, 512) returns a tensor of
    shape (2, 3, 512): the call succeeds because 64 = 512 // 8, not because
    of the length 3 of the sequences. *)
Lemma smoke_test_TransformerEncoder (g : Generator) (x : Tensor3) :
  shape x = (2%nat, 3%nat, 512%nat) ->
  exists enc g' y,
    TransformerEncoder.init 6 8 64 512 g = Ok (enc, g') /\
    List.length (TransformerEncoder.layers enc) = 6%nat /\
    TransformerEncoder.forward enc x = Ok y /\
    shape y = (2%nat, 3%nat, 512%nat).
Proof.
  intros Hx.
  destruct (TransformerEncoder_init_Ok 6 8 64 512 g)
    as (enc & g' & E & Len & W);
    [discriminate | reflexivity | reflexivity |].
  destruct (TransformerEncoder_loop_feeds _ _ _ _ 2 3 _ W x Hx)
    as (y & Ey & Sy & _).
  exists enc, g', y. auto.
Qed.

(* ================================================================== *)
(** * Further properties of the code *)

(** ** Scaled dot-product attention *)

Lemma Rsum_exp_term_le (n : nat) (f : nat -> R) (i : nat) :
  (i < n)%nat -> exp (f i) <= Rsum n (fun i' => exp (f i')).
Proof.
  induction n as [|n IH]; intros Hi; [lia|].
  simpl. destruct (Nat.eq_dec i n) as [->|Hne].
  - destruct n as [|n].
    + simpl. lra.
    + pose proof (Rsum_exp_pos (S n) f (Nat.lt_0_succ n)). lra.
  - assert (Hlt : (i < n)%nat) by lia.
    pose proof (IH Hlt). pose proof (exp_pos (f n)). lra.
Qed.

(** X1.  The weights that [forward] computes are normalised along the
    query axis: when the batch sizes and key dimensions of queries and
    keys agree, the key dimension is not zero (the scores are divided by
    its square root) and there is at least one query, the weights exist,
    have shape (B, Lq, Lk), every weight lies in (0, 1], and for every
    batch element and every key position the weights of all the queries
    sum to 1. *)
Theorem probabilities_normalized_over_queries (queries keys : Tensor3) :
  dim0 queries = dim0 keys -> dim2 queries = dim2 keys ->
  (0 < dim2 queries)%nat ->
  (0 < dim1 queries)%nat ->
  exists w,
    ScaledDotProductAttention.queries_keys_similarity_probabilities
      queries keys = Ok w /\
    shape w = (dim0 queries, dim1 queries, dim1 keys) /\
    (forall b i j, (i < dim1 queries)%nat ->
                   0 < get3 w b i j /\ get3 w b i j <= 1) /\
    (forall b j, Rsum (dim1 queries) (fun i => get3 w b i j) = 1).
Proof.
  intros H0 H2 _ Hq.
  unfold ScaledDotProductAttention.queries_keys_similarity_probabilities.
  rewrite bmm_Ok by assumption. cbn [bind torch.softmax].
  eexists. split; [reflexivity|]. split; [reflexivity|].
  cbn [get3 dim0 dim1 dim2 torch.div_scalar torch.map3 torch.transpose_1_2].
  split.
  - intros b i j Hi.
    set (f := fun i' =>
                Rsum (dim2 queries)
                     (fun c => get3 queries b i' c * get3 keys b j c)
                / sqrt (INR (dim2 queries))).
    change (0 < exp (f i) / Rsum (dim1 queries) (fun i' => exp (f i')) /\
            exp (f i) / Rsum (dim1 queries) (fun i' => exp (f i')) <= 1).
    pose proof (Rsum_exp_pos (dim1 queries) f Hq) as Hpos.
    pose proof (Rsum_exp_term_le (dim1 queries) f i Hi) as Hle.
    pose proof (exp_pos (f i)) as He.
    split.
    + apply Rdiv_lt_0_compat; assumption.
    + apply (Rmult_le_reg_r (Rsum (dim1 queries) (fun i' => exp (f i'))));
        [exact Hpos|].
      unfold Rdiv. rewrite Rmult_assoc, Rinv_l by lra. lra.
  - intros b j.
    apply (Rsum_softmax (dim1 queries)
             (fun i => Rsum (dim2 queries)
                         (fun c => get3 queries b i c * get3 keys b j c)
                       / sqrt (INR (dim2 queries))) Hq).
Qed.

Lemma probabilities_normalized_over_queries_witness :
  dim0 input_1_2_1 = dim0 input_1_2_1 /\
  dim2 input_1_2_1 = dim2 input_1_2_1 /\
  (0 < dim2 input_1_2_1)%nat /\
  (0 < dim1 input_1_2_1)%nat /\
  exists w,
    ScaledDotProductAttention.queries_keys_similarity_probabilities
      input_1_2_1 input_1_2_1 = Ok w /\
    (forall b j, Rsum (dim1 input_1_2_1) (fun i => get3 w b i j) = 1).
Proof.
  assert (H1 : dim0 input_1_2_1 = dim0 input_1_2_1) by reflexivity.
  assert (H2 : dim2 input_1_2_1 = dim2 input_1_2_1) by reflexivity.
  assert (Hk : (0 < dim2 input_1_2_1)%nat) by (vm_compute; repeat constructor).
  assert (H3 : (0 < dim1 input_1_2_1)%nat) by (vm_compute; repeat constructor).
  split; [exact H1|]. split; [exact H2|]. split; [exact Hk|].
  split; [exact H3|].
  destruct (probabilities_normalized_over_queries input_1_2_1 input_1_2_1
              H1 H2 Hk H3) as (w & E & _ & _ & S).
  exists w. split; [exact E | exact S].
Defined.

(** When [forward] raises: one of the four shape agreements fails. *)
Lemma ScaledDotProductAttention_forward_Raise
      (attention : ScaledDotProductAttention.t) (q k v : Tensor3) :
  ~ (dim0 q = dim0 k /\ dim2 q = dim2 k /\
     dim0 q = dim0 v /\ dim1 k = dim1 v) ->
  ScaledDotProductAttention.forward attention q k v = Raise RuntimeError.
Proof.
  intros Hn.
  unfold ScaledDotProductAttention.forward,
    ScaledDotProductAttention.queries_keys_similarity_probabilities,
    torch.bmm.
  cbn [dim0 dim1 dim2 torch.transpose_1_2].
  destruct (Nat.eqb_spec (dim0 q) (dim0 k)) as [E0|N0];
    [|reflexivity].
  destruct (Nat.eqb_spec (dim2 q) (dim2 k)) as [E2|N2];
    [|reflexivity].
  cbn [andb bind torch.softmax dim0 dim1 dim2 torch.div_scalar torch.map3].
  destruct (Nat.eqb_spec (dim0 q) (dim0 v)) as [E0v|N0v];
    [|reflexivity].
  destruct (Nat.eqb_spec (dim1 k) (dim1 v)) as [E1|N1];
    [|reflexivity].
  contradiction Hn. auto.
Qed.

(** The outcome of [forward], by the shapes of its arguments. *)
Lemma ScaledDotProductAttention_forward_cases
        (attention : ScaledDotProductAttention.t) (q k v : Tensor3) :
  match ScaledDotProductAttention.forward attention q k v with
  | Ok out =>
      (dim0 q = dim0 k /\ dim2 q = dim2 k /\
       dim0 q = dim0 v /\ dim1 k = dim1 v) /\
      shape out = (dim0 q, dim1 q, dim2 v)
  | Raise e =>
      e = RuntimeError /\
      ~ (dim0 q = dim0 k /\ dim2 q = dim2 k /\
         dim0 q = dim0 v /\ dim1 k = dim1 v)
  end.
Proof.
  destruct (Nat.eq_dec (dim0 q) (dim0 k)) as [E0|N0].
  2:{ rewrite ScaledDotProductAttention_forward_Raise; [split|]; tauto. }
  destruct (Nat.eq_dec (dim2 q) (dim2 k)) as [E2|N2].
  2:{ rewrite ScaledDotProductAttention_forward_Raise; [split|]; tauto. }
  destruct (Nat.eq_dec (dim0 q) (dim0 v)) as [E0v|N0v].
  2:{ rewrite ScaledDotProductAttention_forward_Raise; [split|]; tauto. }
  destruct (Nat.eq_dec (dim1 k) (dim1 v)) as [E1|N1].
  2:{ rewrite ScaledDotProductAttention_forward_Raise; [split|]; tauto. }
  destruct (ScaledDotProductAttention_forward_shape attention q k v
              (dim0 q) (dim1 q) (dim1 k) (dim2 q) (dim2 v))
    as (out & E & S).
  - reflexivity.
  - unfold shape. congruence.
  - unfold shape. congruence.
  - rewrite E. auto.
Qed.

(** X2.  [forward] succeeds exactly when queries, keys and values have
    one batch size, queries and keys have one feature dimension, and keys
    and values have one length; the result then has the batch size and
    length of the queries and the feature dimension of the values.  In
    every other case it raises a shape error. *)
Theorem ScaledDotProductAttention_forward_shapes
        (attention : ScaledDotProductAttention.t) (q k v : Tensor3) :
  match ScaledDotProductAttention.forward attention q k v with
  | Ok out =>
      (dim0 q = dim0 k /\ dim2 q = dim2 k /\
       dim0 q = dim0 v /\ dim1 k = dim1 v) /\
      shape out = (dim0 q, dim1 q, dim2 v)
  | Raise e =>
      e = RuntimeError /\
      ~ (dim0 q = dim0 k /\ dim2 q = dim2 k /\
         dim0 q = dim0 v /\ dim1 k = dim1 v)
  end.
Proof.
  apply ScaledDotProductAttention_forward_cases.
Qed.

(** X3.  With a single query position and a key dimension that is not
    zero, the softmax over the query axis makes every weight 1, so the
    output is, for every batch element and value feature, the plain sum of
    the values over all key positions (not a weighted mean of them). *)
Theorem ScaledDotProductAttention_single_query
        (attention : ScaledDotProductAttention.t) (q k v out : Tensor3) :
  dim1 q = 1%nat ->
  (0 < dim2 q)%nat ->
  ScaledDotProductAttention.forward attention q k v = Ok out ->
  shape out = (dim0 q, 1%nat, dim2 v) /\
  forall b c, get3 out b 0 c = Rsum (dim1 k) (fun j => get3 v b j c).
Proof.
  intros Hq _ E.
  pose proof (ScaledDotProductAttention_forward_cases attention q k v) as S.
  rewrite E in S. destruct S as [_ S]. rewrite Hq in S.
  split; [exact S|].
  unfold ScaledDotProductAttention.forward,
    ScaledDotProductAttention.queries_keys_similarity_probabilities,
    torch.bmm in E.
  cbn [dim0 dim1 dim2 torch.transpose_1_2] in E.
  destruct ((dim0 q =? dim0 k)%nat && (dim2 q =? dim2 k)%nat)%bool;
    [|discriminate E].
  cbn [bind torch.softmax dim0 dim1 dim2 torch.div_scalar torch.map3] in E.
  destruct ((dim0 q =? dim0 v)%nat && (dim1 k =? dim1 v)%nat)%bool;
    [|discriminate E].
  injection E as <-. intros b c. cbn [get3 dim2 dim1].
  apply Rsum_ext. intros j _. rewrite Hq. cbn [Rsum].
  match goal with
  | |- exp ?s / (0 + exp ?s) * _ = _ =>
      pose proof (exp_pos s) as He;
      replace (exp s / (0 + exp s)) with 1 by (field; lra)
  end.
  lra.
Qed.

Lemma ScaledDotProductAttention_single_query_witness :
  exists out,
    dim1 (torch.zeros 1 1 1) = 1%nat /\
    (0 < dim2 (torch.zeros 1 1 1))%nat /\
    ScaledDotProductAttention.forward ScaledDotProductAttention.Build
      (torch.zeros 1 1 1) input_1_2_1 input_1_2_1 = Ok out /\
    shape out = (1%nat, 1%nat, 1%nat) /\
    forall b c, get3 out b 0 c
                = Rsum (dim1 input_1_2_1) (fun j => get3 input_1_2_1 b j c).
Proof.
  eexists.
  assert (H1 : dim1 (torch.zeros 1 1 1) = 1%nat) by reflexivity.
  assert (Hk : (0 < dim2 (torch.zeros 1 1 1))%nat)
    by (vm_compute; repeat constructor).
  split; [exact H1|]. split; [exact Hk|]. split; [reflexivity|].
  exact (ScaledDotProductAttention_single_query
           ScaledDotProductAttention.Build
           (torch.zeros 1 1 1) input_1_2_1 input_1_2_1 _ H1 Hk eq_refl).
Defined.

Lemma Rsum_plus (n : nat) (f g : nat -> R) :
  Rsum n (fun i => f i + g i) = Rsum n f + Rsum n g.
Proof.
  induction n as [|n IH]; simpl.
  - lra.
  - rewrite IH. lra.
Qed.

(** The output of [forward] as a function of the weights and the values. *)
Lemma ScaledDotProductAttention_forward_get
      (attention : ScaledDotProductAttention.t) (q k v out : Tensor3) :
  ScaledDotProductAttention.forward attention q k v = Ok out ->
  exists w,
    ScaledDotProductAttention.queries_keys_similarity_probabilities q k
    = Ok w /\
    dim2 w = dim1 k /\
    forall b i c,
      get3 out b i c = Rsum (dim1 k) (fun j => get3 w b i j * get3 v b j c).
Proof.
  unfold ScaledDotProductAttention.forward. intros E.
  apply bind_Ok in E. destruct E as (w & Ew & Eo).
  exists w. split; [exact Ew|].
  assert (Hw : dim2 w = dim1 k).
  { unfold ScaledDotProductAttention.queries_keys_similarity_probabilities
      in Ew.
    apply bind_Ok in Ew. destruct Ew as (d & Ed & Es).
    unfold torch.bmm in Ed.
    destruct ((dim0 q =? dim0 (torch.transpose_1_2 k))%nat &&
              (dim2 q =? dim1 (torch.transpose_1_2 k))%nat)%bool;
      [|discriminate Ed].
    injection Ed as <-. cbn in Es. injection Es as <-. reflexivity. }
  split; [exact Hw|].
  unfold torch.bmm in Eo.
  destruct ((dim0 w =? dim0 v)%nat && (dim2 w =? dim1 v)%nat)%bool;
    [|discriminate Eo].
  injection Eo as <-. intros b i c. cbn [get3]. rewrite Hw. reflexivity.
Qed.

(** X4.  Attention is additive in the values: for two value tensors of one
    shape, the output on their sum is the sum of the outputs, entry by
    entry (the weights depend on queries and keys only). *)
Theorem ScaledDotProductAttention_forward_additive
        (attention : ScaledDotProductAttention.t)
        (q k v1 v2 vs o1 o2 : Tensor3) :
  shape v1 = shape v2 ->
  torch.add v1 v2 = Ok vs ->
  ScaledDotProductAttention.forward attention q k v1 = Ok o1 ->
  ScaledDotProductAttention.forward attention q k v2 = Ok o2 ->
  exists o,
    ScaledDotProductAttention.forward attention q k vs = Ok o /\
    shape o = shape o1 /\
    forall b i c, (b < dim0 v1)%nat -> (c < dim2 v1)%nat ->
                  get3 o b i c = get3 o1 b i c + get3 o2 b i c.
Proof.
  intros Hs Ea E1 E2.
  destruct (add_same_shape v1 v2 Hs) as (z & Ez & Sz & Gz).
  rewrite Ea in Ez. injection Ez as <-.
  pose proof (ScaledDotProductAttention_forward_cases attention q k v1) as C1.
  rewrite E1 in C1. destruct C1 as ((c0 & c2 & c0v & c1) & S1).
  destruct (shape_inv vs _ _ _ Sz) as (z0 & z1 & z2).
  destruct (ScaledDotProductAttention_forward_shape attention q k vs
              (dim0 q) (dim1 q) (dim1 k) (dim2 q) (dim2 v1))
    as (o & Eo & So).
  { reflexivity. }
  { unfold shape. congruence. }
  { unfold shape. congruence. }
  exists o. split; [exact Eo|]. split; [congruence|].
  intros b i c Hb Hc.
  destruct (ScaledDotProductAttention_forward_get _ _ _ _ _ Eo)
    as (w & Ew & _ & Go).
  destruct (ScaledDotProductAttention_forward_get _ _ _ _ _ E1)
    as (w1 & Ew1 & _ & Go1).
  destruct (ScaledDotProductAttention_forward_get _ _ _ _ _ E2)
    as (w2 & Ew2 & _ & Go2).
  rewrite Ew in Ew1, Ew2. injection Ew1 as <-. injection Ew2 as <-.
  rewrite Go, Go1, Go2, <- Rsum_plus.
  apply Rsum_ext. intros j Hj.
  rewrite (Gz b j c) by lia. ring.
Qed.

Lemma ScaledDotProductAttention_forward_additive_witness :
  exists vs o1 o2 o,
    shape input_1_2_1 = shape input_1_2_1 /\
    torch.add input_1_2_1 input_1_2_1 = Ok vs /\
    ScaledDotProductAttention.forward ScaledDotProductAttention.Build
      input_1_2_1 input_1_2_1 input_1_2_1 = Ok o1 /\
    ScaledDotProductAttention.forward ScaledDotProductAttention.Build
      input_1_2_1 input_1_2_1 input_1_2_1 = Ok o2 /\
    ScaledDotProductAttention.forward ScaledDotProductAttention.Build
      input_1_2_1 input_1_2_1 vs = Ok o /\
    forall b i c, (b < dim0 input_1_2_1)%nat -> (c < dim2 input_1_2_1)%nat ->
                  get3 o b i c = get3 o1 b i c + get3 o2 b i c.
Proof.
  assert (H1 : shape input_1_2_1 = shape input_1_2_1) by reflexivity.
  destruct (ScaledDotProductAttention_forward_additive
              ScaledDotProductAttention.Build
              input_1_2_1 input_1_2_1 input_1_2_1 input_1_2_1
              _ _ _ H1 eq_refl eq_refl eq_refl) as (o & Eo & _ & G).
  eexists. eexists. eexists. exists o.
  split; [exact H1|]. split; [reflexivity|].
  split; [reflexivity|]. split; [reflexivity|].
  split; [exact Eo | exact G].
Defined.

(** ** Positional encoding: construction *)

Lemma compute_positional_encoding_matrix_zero (max_seq_length : nat) :
  PositionalEncoding.compute_positional_encoding_matrix max_seq_length 0
  = Raise ZeroDivisionError.
Proof. reflexivity. Qed.

(** An odd dimension of 3 or more: the sines fill (D+1)/2 columns, the
    cosines would have to fill (D-1)/2 columns from (D+1)/2 sources. *)
Lemma compute_positional_encoding_matrix_odd (max_seq_length h : nat) :
  (1 <= h)%nat ->
  PositionalEncoding.compute_positional_encoding_matrix
    max_seq_length (2 * h + 1) = Raise RuntimeError.
Proof.
  intros Hh.
  unfold PositionalEncoding.compute_positional_encoding_matrix, py_truediv.
  destruct (Nat.eqb_spec (2 * h + 1) 0) as [E|_]; [lia|].
  cbn [bind]. rewrite mul_2_1_column by reflexivity. cbn [bind].
  rewrite setitem_0_all_stride2_Ok.
  2:{ simpl. discriminate. }
  2:{ reflexivity. }
  2:{ cbn [cols2 torch.map2 len1 torch.map1 torch.mul_scalar1
           torch.arange_step2 dim2 torch.zeros].
      unfold torch.stride2_count. f_equal. lia. }
  cbn [bind]. unfold torch.setitem_0_all_stride2.
  cbn [dim0 dim1 dim2 rows2 cols2 torch.map2 len1 torch.map1
       torch.mul_scalar1 torch.arange_step2 torch.unsqueeze1 torch.arange
       torch.zeros Nat.eqb].
  unfold torch.stride2_count.
  replace (2 * h + 1 + 1)%nat with (2 * (h + 1))%nat by lia.
  replace (2 * h + 1 - 1 + 1)%nat with (S (2 * h)) by lia.
  rewrite Nat.div2_double, Nat.div2_succ_double.
  destruct (Nat.eqb_spec (h + 1) h) as [E|_]; [lia|].
  destruct (Nat.eqb_spec (h + 1) 1) as [E|_]; [lia|].
  rewrite andb_false_r. reflexivity.
Qed.

(** The outcome of the constructor, by dimension. *)
Lemma PositionalEncoding_init_cases (max_seq_length d_model : nat) :
  match PositionalEncoding.init max_seq_length d_model with
  | Ok pe =>
      d_model <> 0%nat /\
      (Nat.even d_model = true \/ d_model = 1%nat) /\
      shape (PositionalEncoding.positional_encoding_matrix pe)
      = (1%nat, max_seq_length, d_model)
  | Raise e =>
      (d_model = 0%nat /\ e = ZeroDivisionError) \/
      (Nat.odd d_model = true /\ (3 <= d_model)%nat /\ e = RuntimeError)
  end.
Proof.
  unfold PositionalEncoding.init.
  destruct (Nat.eq_dec d_model 0) as [->|Hnz].
  { rewrite compute_positional_encoding_matrix_zero. cbn [bind]. auto. }
  destruct (Nat.even d_model) eqn:Hev.
  - destruct (compute_positional_encoding_matrix_Ok max_seq_length d_model
                Hev Hnz) as (m & Em & Sm & _).
    rewrite Em. cbn [bind PositionalEncoding.positional_encoding_matrix].
    auto.
  - assert (Hodd : Nat.odd d_model = true).
    { unfold Nat.odd. rewrite Hev. reflexivity. }
    pose proof Hodd as Ho. apply Nat.odd_spec in Ho. destruct Ho as [h Eh].
    destruct (Nat.eq_dec h 0) as [->|Hh].
    + subst d_model. cbn. rewrite Nat.eqb_refl. cbn.
      rewrite Nat.eqb_refl. cbn.
      split; [discriminate|]. split; [right|]; reflexivity.
    + subst d_model.
      rewrite compute_positional_encoding_matrix_odd by lia.
      cbn [bind]. right. repeat split; [exact Hodd | lia].
Qed.


(** X5.  The constructor of [PositionalEncoding] rejects a zero dimension
    with the ZeroDivisionError of [-math.log(10000.0) / d_model], and an
    odd dimension of 3 or more with a shape error of the strided
    assignment of the cosines, whatever the maximum length; when it
    returns, the dimension is even (or 1), not zero, and the table has
    shape (1, max_seq_length, d_model). *)
Theorem PositionalEncoding_init_dimension (max_seq_length d_model : nat) :
  match PositionalEncoding.init max_seq_length d_model with
  | Ok pe =>
      d_model <> 0%nat /\
      (Nat.even d_model = true \/ d_model = 1%nat) /\
      shape (PositionalEncoding.positional_encoding_matrix pe)
      = (1%nat, max_seq_length, d_model)
  | Raise e =>
      (d_model = 0%nat /\ e = ZeroDivisionError) \/
      (Nat.odd d_model = true /\ (3 <= d_model)%nat /\ e = RuntimeError)
  end.
Proof.
  apply PositionalEncoding_init_cases.
Qed.

(** What a table built for an even dimension holds. *)
Lemma PositionalEncoding_init_inv (max_seq_length d_model : nat)
      (pe : PositionalEncoding.t) :
  PositionalEncoding.init max_seq_length d_model = Ok pe ->
  Nat.even d_model = true ->
  d_model <> 0%nat /\
  shape (PositionalEncoding.positional_encoding_matrix pe)
  = (1%nat, max_seq_length, d_model) /\
  forall p i, (p < max_seq_length)%nat -> (i < d_model / 2)%nat ->
    get3 (PositionalEncoding.positional_encoding_matrix pe) 0 p (2 * i)
    = sin (INR p * omega d_model i) /\
    get3 (PositionalEncoding.positional_encoding_matrix pe) 0 p (2 * i + 1)
    = cos (INR p * omega d_model i).
Proof.
  intros E Hev.
  assert (Hnz : d_model <> 0%nat).
  { intros ->. unfold PositionalEncoding.init in E.
    rewrite compute_positional_encoding_matrix_zero in E. discriminate E. }
  destruct (compute_positional_encoding_matrix_Ok max_seq_length d_model
              Hev Hnz) as (m & Em & Sm & Gm).
  unfold PositionalEncoding.init in E. rewrite Em in E. cbn [bind] in E.
  injection E as <-. cbn [PositionalEncoding.positional_encoding_matrix].
  auto.
Qed.

(** Every column below an even [d] is the sine or the cosine column of a
    feature pair. *)
Lemma column_pair (d k : nat) :
  Nat.even d = true -> (k < d)%nat ->
  exists i, (i < d / 2)%nat /\ (k = 2 * i \/ k = 2 * i + 1)%nat.
Proof.
  intros Hev Hk. apply Nat.even_spec in Hev. destruct Hev as [h ->].
  rewrite Nat.mul_comm, Nat.div_mul by lia.
  destruct (Nat.Even_or_Odd k) as [[i ->]|[i ->]]; exists i; lia.
Qed.

(** X6.  Every entry of the table of an even dimension lies in [-1, 1]. *)
Theorem positional_encoding_matrix_bounded (max_seq_length d_model : nat)
        (pe : PositionalEncoding.t) :
  PositionalEncoding.init max_seq_length d_model = Ok pe ->
  Nat.even d_model = true ->
  forall p k, (p < max_seq_length)%nat -> (k < d_model)%nat ->
    -1 <= get3 (PositionalEncoding.positional_encoding_matrix pe) 0 p k <= 1.
Proof.
  intros E Hev p k Hp Hk.
  destruct (PositionalEncoding_init_inv _ _ _ E Hev) as (_ & _ & G).
  destruct (column_pair d_model k Hev Hk) as (i & Hi & [->| ->]);
    destruct (G p i Hp Hi) as (Gs & Gc).
  - rewrite Gs. apply SIN_bound.
  - rewrite Gc. apply COS_bound.
Qed.

Lemma positional_encoding_matrix_bounded_witness :
  exists pe,
    PositionalEncoding.init 3 4 = Ok pe /\
    Nat.even 4 = true /\
    forall p k, (p < 3)%nat -> (k < 4)%nat ->
      -1 <= get3 (PositionalEncoding.positional_encoding_matrix pe) 0 p k <= 1.
Proof.
  eexists. split; [reflexivity|]. split; [reflexivity|].
  exact (positional_encoding_matrix_bounded 3 4 _ eq_refl eq_refl).
Defined.

(** X7.  In the table of an even dimension, position 0 is encoded as
    (0, 1, 0, 1, ...), and the first feature pair of position p is
    (sin p, cos p). *)
Theorem positional_encoding_matrix_first (max_seq_length d_model : nat)
        (pe : PositionalEncoding.t) :
  PositionalEncoding.init max_seq_length d_model = Ok pe ->
  Nat.even d_model = true ->
  (forall i, (0 < max_seq_length)%nat -> (i < d_model / 2)%nat ->
     get3 (PositionalEncoding.positional_encoding_matrix pe) 0 0 (2 * i) = 0 /\
     get3 (PositionalEncoding.positional_encoding_matrix pe) 0 0 (2 * i + 1)
     = 1) /\
  (forall p, (p < max_seq_length)%nat ->
     get3 (PositionalEncoding.positional_encoding_matrix pe) 0 p 0
     = sin (INR p) /\
     get3 (PositionalEncoding.positional_encoding_matrix pe) 0 p 1
     = cos (INR p)).
Proof.
  intros E Hev.
  destruct (PositionalEncoding_init_inv _ _ _ E Hev) as (Hnz & _ & G).
  split.
  - intros i HM Hi. destruct (G 0%nat i HM Hi) as (Gs & Gc).
    rewrite Gs, Gc. cbn [INR]. rewrite Rmult_0_l, sin_0, cos_0. auto.
  - intros p Hp.
    assert (Hi : (0 < d_model / 2)%nat).
    { apply Nat.even_spec in Hev. destruct Hev as [h ->].
      rewrite Nat.mul_comm, Nat.div_mul by lia. lia. }
    destruct (G p 0%nat Hp Hi) as (Gs & Gc).
    cbn [Nat.mul Nat.add] in Gs, Gc.
    assert (Hw : omega d_model 0 = 1).
    { unfold omega. cbn [INR].
      replace (- (2 * 0) * ln 10000 / INR d_model) with 0
        by (unfold Rdiv; ring).
      apply exp_0. }
    rewrite Hw, Rmult_1_r in Gs, Gc. auto.
Qed.

Lemma positional_encoding_matrix_first_witness :
  exists pe,
    PositionalEncoding.init 3 4 = Ok pe /\
    Nat.even 4 = true /\
    (forall p, (p < 3)%nat ->
       get3 (PositionalEncoding.positional_encoding_matrix pe) 0 p 0
       = sin (INR p) /\
       get3 (PositionalEncoding.positional_encoding_matrix pe) 0 p 1
       = cos (INR p)).
Proof.
  eexists. split; [reflexivity|]. split; [reflexivity|].
  exact (proj2 (positional_encoding_matrix_first 3 4 _ eq_refl eq_refl)).
Defined.

Lemma Rsum_pairs (h : nat) (f : nat -> R) :
  Rsum (2 * h) f = Rsum h (fun i => f (2 * i)%nat + f (2 * i + 1)%nat).
Proof.
  induction h as [|h IH].
  - reflexivity.
  - replace (2 * S h)%nat with (S (S (2 * h))) by lia.
    cbn [Rsum]. rewrite IH.
    replace (S (2 * h)) with (2 * h + 1)%nat by lia. lra.
Qed.

Lemma Rsum_ones (n : nat) : Rsum n (fun _ => 1) = INR n.
Proof.
  induction n as [|n IH].
  - reflexivity.
  - cbn [Rsum]. rewrite IH, S_INR. reflexivity.
Qed.

(** X8.  In the table of an even dimension D, the two entries of every
    feature pair of a position have squares that add up to 1, so every
    position is encoded by a vector of squared Euclidean norm D / 2. *)
Theorem positional_encoding_matrix_norm (max_seq_length d_model : nat)
        (pe : PositionalEncoding.t) :
  PositionalEncoding.init max_seq_length d_model = Ok pe ->
  Nat.even d_model = true ->
  forall p, (p < max_seq_length)%nat ->
    (forall i, (i < d_model / 2)%nat ->
       get3 (PositionalEncoding.positional_encoding_matrix pe) 0 p (2 * i) *
       get3 (PositionalEncoding.positional_encoding_matrix pe) 0 p (2 * i) +
       get3 (PositionalEncoding.positional_encoding_matrix pe) 0 p (2 * i + 1)
       * get3 (PositionalEncoding.positional_encoding_matrix pe) 0 p
              (2 * i + 1) = 1) /\
    Rsum d_model
         (fun k =>
            get3 (PositionalEncoding.positional_encoding_matrix pe) 0 p k *
            get3 (PositionalEncoding.positional_encoding_matrix pe) 0 p k)
    = INR (d_model / 2).
Proof.
  intros E Hev p Hp.
  destruct (PositionalEncoding_init_inv _ _ _ E Hev) as (_ & _ & G).
  assert (Hpair : forall i, (i < d_model / 2)%nat ->
     get3 (PositionalEncoding.positional_encoding_matrix pe) 0 p (2 * i) *
     get3 (PositionalEncoding.positional_encoding_matrix pe) 0 p (2 * i) +
     get3 (PositionalEncoding.positional_encoding_matrix pe) 0 p (2 * i + 1)
     * get3 (PositionalEncoding.positional_encoding_matrix pe) 0 p
            (2 * i + 1) = 1).
  { intros i Hi. destruct (G p i Hp Hi) as (Gs & Gc). rewrite Gs, Gc.
    apply (sin2_cos2 (INR p * omega d_model i)). }
  split; [exact Hpair|].
  pose proof Hev as He. apply Nat.even_spec in He. destruct He as [h Eh].
  assert (Hh : (d_model / 2 = h)%nat).
  { rewrite Eh, Nat.mul_comm, Nat.div_mul by lia. reflexivity. }
  rewrite Hh in *. rewrite Eh at 1. rewrite Rsum_pairs.
  rewrite <- Rsum_ones. apply Rsum_ext. intros i Hi. apply (Hpair i Hi).
Qed.

Lemma positional_encoding_matrix_norm_witness :
  exists pe,
    PositionalEncoding.init 3 4 = Ok pe /\
    Nat.even 4 = true /\ (2 < 3)%nat /\
    Rsum 4
         (fun k =>
            get3 (PositionalEncoding.positional_encoding_matrix pe) 0 2 k *
            get3 (PositionalEncoding.positional_encoding_matrix pe) 0 2 k)
    = INR (4 / 2).
Proof.
  assert (H : (2 < 3)%nat) by (vm_compute; repeat constructor).
  eexists. split; [reflexivity|]. split; [reflexivity|]. split; [exact H|].
  exact (proj2 (positional_encoding_matrix_norm 3 4 _ eq_refl eq_refl 2 H)).
Defined.

(** X9.  The entries of the table do not depend on the maximum length it
    was built for: the first M rows of a table built for M' >= M positions
    are the table built for M positions (same even dimension). *)
Theorem positional_encoding_matrix_prefix (M M' d_model : nat)
        (pe pe' : PositionalEncoding.t) :
  PositionalEncoding.init M d_model = Ok pe ->
  PositionalEncoding.init M' d_model = Ok pe' ->
  Nat.even d_model = true ->
  (M <= M')%nat ->
  teq (torch.slice_dim1 (PositionalEncoding.positional_encoding_matrix pe') M)
      (PositionalEncoding.positional_encoding_matrix pe).
Proof.
  intros E E' Hev Hle.
  destruct (PositionalEncoding_init_inv _ _ _ E Hev) as (_ & S & G).
  destruct (PositionalEncoding_init_inv _ _ _ E' Hev) as (_ & S' & G').
  destruct (shape_inv _ _ _ _ S') as (s0 & s1 & s2).
  split.
  - rewrite S. unfold shape. cbn [dim0 dim1 dim2 torch.slice_dim1].
    rewrite s0, s1, s2, Nat.min_l by exact Hle. reflexivity.
  - cbn [dim0 dim1 dim2 torch.slice_dim1 get3].
    rewrite s0, s1, s2, Nat.min_l by exact Hle.
    intros b i k Hb Hi Hk. assert (b = 0)%nat as -> by lia.
    destruct (column_pair d_model k Hev Hk) as (j & Hj & [->| ->]);
      destruct (G i j Hi Hj) as (Gs & Gc);
      destruct (G' i j (Nat.lt_le_trans _ _ _ Hi Hle) Hj) as (Gs' & Gc');
      congruence.
Qed.

Lemma positional_encoding_matrix_prefix_witness :
  exists pe pe',
    PositionalEncoding.init 2 4 = Ok pe /\
    PositionalEncoding.init 3 4 = Ok pe' /\
    Nat.even 4 = true /\ (2 <= 3)%nat /\
    teq (torch.slice_dim1
           (PositionalEncoding.positional_encoding_matrix pe') 2)
        (PositionalEncoding.positional_encoding_matrix pe).
Proof.
  assert (H : (2 <= 3)%nat) by (vm_compute; repeat constructor).
  eexists. eexists. split; [reflexivity|]. split; [reflexivity|].
  split; [reflexivity|]. split; [exact H|].
  exact (positional_encoding_matrix_prefix 2 3 4 _ _ eq_refl eq_refl
           eq_refl H).
Defined.

(** ** Positional encoding: the feature axis in [forward] *)

(** X10.  [forward] does not check the feature dimension of its input
    either.  For a table of shape (1, M, D) and an input of shape
    (B, L, D') with L <= M: when D' = D the result has shape (B, L, D);
    an input with a single feature (D' = 1) is accepted and widened to
    the D features of the table, and a table with a single feature is
    added to all D' features of the input; every other mismatch raises a
    shape error.  The module is returned as it was. *)
Theorem PositionalEncoding_forward_features (self : PositionalEncoding.t)
        (M D : nat) (embedding : Tensor3) (B L D' : nat) :
  shape (PositionalEncoding.positional_encoding_matrix self) = (1%nat, M, D) ->
  shape embedding = (B, L, D') ->
  (L <= M)%nat ->
  match PositionalEncoding.forward self embedding with
  | Ok (out, self') =>
      self' = self /\
      (D' = D \/ D' = 1%nat \/ D = 1%nat) /\
      shape out = (B, L, if (D' =? 1)%nat then D else D')
  | Raise e =>
      e = RuntimeError /\ D' <> D /\ D' <> 1%nat /\ D <> 1%nat
  end.
Proof.
  intros Hpe Hx Hle.
  destruct (shape_inv _ _ _ _ Hpe) as (p0 & p1 & p2).
  destruct (shape_inv _ _ _ _ Hx) as (x0 & x1 & x2).
  unfold PositionalEncoding.forward, torch.add.
  cbn [dim0 dim1 dim2 torch.slice_dim1 get3].
  rewrite p0, p1, p2, x0, x1, x2, broadcast_dim_1_r.
  rewrite Nat.min_l by exact Hle. rewrite broadcast_dim_same.
  unfold broadcast_dim.
  destruct (Nat.eqb_spec D' D) as [->|Hne].
  - cbn [bind]. split; [reflexivity|]. split; [auto|].
    destruct (D =? 1)%nat eqn:E1; [|reflexivity].
    apply Nat.eqb_eq in E1. subst D. reflexivity.
  - destruct (Nat.eqb_spec D' 1) as [->|Hn1].
    + cbn [bind]. auto.
    + destruct (Nat.eqb_spec D 1) as [->|Hd1].
      * cbn [bind]. auto.
      * cbn [bind]. auto.
Qed.

Lemma PositionalEncoding_forward_features_witness :
  shape (PositionalEncoding.positional_encoding_matrix table_3_2)
  = (1%nat, 3%nat, 2%nat) /\
  shape input_1_2_1 = (1%nat, 2%nat, 1%nat) /\
  (2 <= 3)%nat /\
  match PositionalEncoding.forward table_3_2 input_1_2_1 with
  | Ok (out, self') =>
      self' = table_3_2 /\
      (1%nat = 2%nat \/ 1%nat = 1%nat \/ 2%nat = 1%nat) /\
      shape out = (1%nat, 2%nat, if (1 =? 1)%nat then 2%nat else 1%nat)
  | Raise e =>
      e = RuntimeError /\ 1%nat <> 2%nat /\ 1%nat <> 1%nat /\ 2%nat <> 1%nat
  end.
Proof.
  assert (H1 : shape (PositionalEncoding.positional_encoding_matrix
                        table_3_2) = (1%nat, 3%nat, 2%nat)) by reflexivity.
  assert (H2 : shape input_1_2_1 = (1%nat, 2%nat, 1%nat)) by reflexivity.
  assert (H3 : (2 <= 3)%nat) by (vm_compute; repeat constructor).
  split; [exact H1|]. split; [exact H2|]. split; [exact H3|].
  exact (PositionalEncoding_forward_features table_3_2 3 2 input_1_2_1
           1 2 1 H1 H2 H3).
Defined.

(** ** Shape errors of the forward passes *)

Lemma Linear_forward_Raise (m : Linear.t) (x : Tensor3) (i o : nat)
      (b : bool) :
  Linear_is m i o b -> dim2 x <> i ->
  Linear.forward m x = Raise RuntimeError.
Proof.
  intros (Hi & _) Hx. unfold Linear.forward. rewrite Hi.
  destruct (Nat.eqb_spec (dim2 x) i) as [E|_]; [contradiction | reflexivity].
Qed.

Lemma mapM_first_Raise {A B : Type} (f : A -> result B) (a : A)
      (l : list A) (e : exception) :
  f a = Raise e -> mapM f (a :: l) = Raise e.
Proof. intros H. simpl. rewrite H. reflexivity. Qed.

(** One head on arbitrary inputs: it succeeds exactly when the three
    inputs have [d_model] features and shapes that attention accepts. *)
Lemma MultiHeadAttention_head_cases (self : MultiHeadAttention.t)
      (num_heads d_k d_v d_model : nat) (queries keys values : Tensor3)
      (h : nat) (attention : ScaledDotProductAttention.t) :
  MultiHeadAttention_wf self num_heads d_k d_v d_model ->
  (h < num_heads)%nat ->
  match MultiHeadAttention.head self queries keys values (h, attention) with
  | Ok hd =>
      (dim2 queries = d_model /\ dim2 keys = d_model /\
       dim2 values = d_model /\ dim0 queries = dim0 keys /\
       dim0 queries = dim0 values /\ dim1 keys = dim1 values) /\
      shape hd = (dim0 queries, dim1 queries, d_v)
  | Raise e =>
      e = RuntimeError /\
      ~ (dim2 queries = d_model /\ dim2 keys = d_model /\
         dim2 values = d_model /\ dim0 queries = dim0 keys /\
         dim0 queries = dim0 values /\ dim1 keys = dim1 values)
  end.
Proof.
  intros W Hh. destruct W.
  destruct (nth_error_lt (MultiHeadAttention.queries_projections self) h)
    as (wq & Ewq); [lia|].
  destruct (nth_error_lt (MultiHeadAttention.keys_projections self) h)
    as (wk & Ewk); [lia|].
  destruct (nth_error_lt (MultiHeadAttention.values_projections self) h)
    as (wv & Ewv); [lia|].
  pose proof (Forall_nth_error _ _ _ _ wf_queries0 Ewq) as Pq.
  pose proof (Forall_nth_error _ _ _ _ wf_keys0 Ewk) as Pk.
  pose proof (Forall_nth_error _ _ _ _ wf_values0 Ewv) as Pv.
  unfold MultiHeadAttention.head, getitem. rewrite Ewq. cbn [bind].
  destruct (Nat.eq_dec (dim2 queries) d_model) as [Eq|Nq].
  2:{ rewrite (Linear_forward_Raise wq queries _ _ _ Pq Nq). cbn [bind].
      split; [reflexivity | tauto]. }
  destruct (Linear_forward_shape wq queries _ _ _ Pq Eq) as (q & Lq & Sq).
  rewrite Lq. cbn [bind]. rewrite Ewk. cbn [bind].
  destruct (Nat.eq_dec (dim2 keys) d_model) as [Ek|Nk].
  2:{ rewrite (Linear_forward_Raise wk keys _ _ _ Pk Nk). cbn [bind].
      split; [reflexivity | tauto]. }
  destruct (Linear_forward_shape wk keys _ _ _ Pk Ek) as (k & Lk & Sk).
  rewrite Lk. cbn [bind]. rewrite Ewv. cbn [bind].
  destruct (Nat.eq_dec (dim2 values) d_model) as [Ev|Nv].
  2:{ rewrite (Linear_forward_Raise wv values _ _ _ Pv Nv). cbn [bind].
      split; [reflexivity | tauto]. }
  destruct (Linear_forward_shape wv values _ _ _ Pv Ev) as (v & Lv & Sv).
  rewrite Lv. cbn [bind].
  destruct (shape_inv q _ _ _ Sq) as (q0 & q1 & q2).
  destruct (shape_inv k _ _ _ Sk) as (k0 & k1 & k2).
  destruct (shape_inv v _ _ _ Sv) as (v0 & v1 & v2).
  pose proof (ScaledDotProductAttention_forward_cases attention q k v) as C.
  destruct (ScaledDotProductAttention.forward attention q k v) as [hd|e].
  - destruct C as ((c0 & c2 & c0v & c1) & S).
    split; [repeat split; congruence | congruence].
  - destruct C as (-> & C). split; [reflexivity|].
    intros (_ & _ & _ & a0 & a0v & a1). apply C.
    repeat split; congruence.
Qed.

Lemma MultiHeadAttention_forward_cases (self : MultiHeadAttention.t)
      (num_heads d_k d_v d_model : nat) (queries keys values : Tensor3) :
  MultiHeadAttention_wf self num_heads d_k d_v d_model ->
  match MultiHeadAttention.forward self queries keys values with
  | Ok out =>
      (dim2 queries = d_model /\ dim2 keys = d_model /\
       dim2 values = d_model /\ dim0 queries = dim0 keys /\
       dim0 queries = dim0 values /\ dim1 keys = dim1 values) /\
      shape out = (dim0 queries, dim1 queries, d_model)
  | Raise e =>
      e = RuntimeError /\
      ~ (dim2 queries = d_model /\ dim2 keys = d_model /\
         dim2 values = d_model /\ dim0 queries = dim0 keys /\
         dim0 queries = dim0 values /\ dim1 keys = dim1 values)
  end.
Proof.
  intros W.
  pose proof (wf_num_heads _ _ _ _ _ W) as H1.
  pose proof (wf_attentions_length _ _ _ _ _ W) as La.
  unfold MultiHeadAttention.forward.
  destruct (MultiHeadAttention.attentions self) as [|a0 ats] eqn:Ea;
    [simpl in La; lia|].
  pose proof (MultiHeadAttention_head_cases self _ _ _ _ queries keys values
                0 a0 W H1) as C0.
  destruct (MultiHeadAttention.head self queries keys values (0%nat, a0))
    as [hd0|e0] eqn:E0.
  - destruct C0 as (C & _).
    destruct (mapM_enumerate
                (MultiHeadAttention.head self queries keys values)
                (fun _ hd => shape hd = (dim0 queries, dim1 queries, d_v))
                (a0 :: ats)) as (heads & Eh & Len & Ph).
    { intros i a Hi.
      assert (Hlt : (i < num_heads)%nat).
      { rewrite <- La. apply nth_error_Some. rewrite Hi. discriminate. }
      pose proof (MultiHeadAttention_head_cases self _ _ _ _
                    queries keys values i a W Hlt) as Ci.
      destruct (MultiHeadAttention.head self queries keys values (i, a))
        as [hd|e].
      - exists hd. split; [reflexivity | apply Ci].
      - destruct Ci as (_ & Ci). contradiction. }
    rewrite Eh. cbn [bind].
    assert (Hne : heads <> []).
    { intros ->. simpl in Len. discriminate Len. }
    assert (Hs : forall t, In t heads ->
                   shape t = (dim0 queries, dim1 queries, d_v)).
    { intros t Ht. destruct (In_nth_error heads t Ht) as (i & Hi).
      apply (Ph i t Hi). }
    destruct (cat_dim2_Ok heads _ _ d_v Hne Hs) as (hc & Ec & Sc & _).
    rewrite Ec. cbn [bind].
    rewrite Len, La in Sc.
    destruct (shape_inv hc _ _ _ Sc) as (c0 & c1 & c2).
    destruct (Linear_forward_shape _ hc _ _ _
                (wf_multi_head_linear _ _ _ _ _ W) c2) as (out & Eo & So).
    rewrite Eo. split; [exact C | congruence].
  - unfold enumerate. cbn [List.length seq combine].
    rewrite (mapM_first_Raise _ _ _ _ E0). cbn [bind]. exact C0.
Qed.

(** X11.  For a multi-head attention with the parameter sizes of its
    constructor, [forward] succeeds exactly when queries, keys and values
    all have [d_model] features and one batch size, and keys and values
    have one length; the queries may have another length (cross
    attention), and the result has the batch size and length of the
    queries and [d_model] features.  In every other case [forward] raises
    a shape error. *)
Theorem MultiHeadAttention_forward_shapes (self : MultiHeadAttention.t)
        (num_heads d_k d_v d_model : nat) (queries keys values : Tensor3) :
  MultiHeadAttention_wf self num_heads d_k d_v d_model ->
  match MultiHeadAttention.forward self queries keys values with
  | Ok out =>
      (dim2 queries = d_model /\ dim2 keys = d_model /\
       dim2 values = d_model /\ dim0 queries = dim0 keys /\
       dim0 queries = dim0 values /\ dim1 keys = dim1 values) /\
      shape out = (dim0 queries, dim1 queries, d_model)
  | Raise e =>
      e = RuntimeError /\
      ~ (dim2 queries = d_model /\ dim2 keys = d_model /\
         dim2 values = d_model /\ dim0 queries = dim0 keys /\
         dim0 queries = dim0 values /\ dim1 keys = dim1 values)
  end.
Proof.
  apply MultiHeadAttention_forward_cases.
Qed.

Lemma MultiHeadAttention_forward_shapes_witness :
  MultiHeadAttention_wf attention_2 2 1 1 2 /\
  match MultiHeadAttention.forward attention_2 (torch.zeros 1 1 2)
                                   input_1_3_2 input_1_3_2 with
  | Ok out =>
      (dim2 (torch.zeros 1 1 2) = 2%nat /\ dim2 input_1_3_2 = 2%nat /\
       dim2 input_1_3_2 = 2%nat /\
       dim0 (torch.zeros 1 1 2) = dim0 input_1_3_2 /\
       dim0 (torch.zeros 1 1 2) = dim0 input_1_3_2 /\
       dim1 input_1_3_2 = dim1 input_1_3_2) /\
      shape out = (dim0 (torch.zeros 1 1 2), dim1 (torch.zeros 1 1 2), 2%nat)
  | Raise e =>
      e = RuntimeError /\
      ~ (dim2 (torch.zeros 1 1 2) = 2%nat /\ dim2 input_1_3_2 = 2%nat /\
         dim2 input_1_3_2 = 2%nat /\
         dim0 (torch.zeros 1 1 2) = dim0 input_1_3_2 /\
         dim0 (torch.zeros 1 1 2) = dim0 input_1_3_2 /\
         dim1 input_1_3_2 = dim1 input_1_3_2)
  end.
Proof.
  assert (H1 := attention_2_wf).
  split; [exact H1|].
  exact (MultiHeadAttention_forward_shapes attention_2 2 1 1 2
           (torch.zeros 1 1 2) input_1_3_2 input_1_3_2 H1).
Defined.

Lemma FeedForward_forward_cases (self : PositionWiseFeedForwardNetwork.t)
      (d_model d_ff : nat) (x : Tensor3) :
  FeedForward_wf self d_model d_ff ->
  match PositionWiseFeedForwardNetwork.forward self x with
  | Ok out => dim2 x = d_model /\ shape out = shape x
  | Raise e => e = RuntimeError /\ dim2 x <> d_model
  end.
Proof.
  intros W. destruct (Nat.eq_dec (dim2 x) d_model) as [E|N].
  - destruct (FeedForward_forward_Ok self d_model d_ff x (dim0 x) (dim1 x) W)
      as (h & out & _ & _ & _ & Ef & So).
    { unfold shape. rewrite E. reflexivity. }
    rewrite Ef. split; [exact E|]. rewrite So. unfold shape. rewrite E.
    reflexivity.
  - unfold PositionWiseFeedForwardNetwork.forward.
    rewrite (Linear_forward_Raise _ x _ _ _ (wf_linear_1 _ _ _ W) N).
    cbn [bind]. auto.
Qed.

(** X12.  For a feed-forward network with the parameter sizes of its
    constructor, [forward] accepts exactly the inputs whose last axis has
    [d_model] entries, whatever their batch size and length (empty ones
    included), and returns a tensor of the input's shape; on any other
    input it raises a shape error. *)
Theorem FeedForward_forward_shapes (self : PositionWiseFeedForwardNetwork.t)
        (d_model d_ff : nat) (x : Tensor3) :
  FeedForward_wf self d_model d_ff ->
  match PositionWiseFeedForwardNetwork.forward self x with
  | Ok out => dim2 x = d_model /\ shape out = shape x
  | Raise e => e = RuntimeError /\ dim2 x <> d_model
  end.
Proof.
  apply FeedForward_forward_cases.
Qed.

Lemma FeedForward_forward_shapes_witness :
  FeedForward_wf feed_forward_2 2 2048 /\
  match PositionWiseFeedForwardNetwork.forward feed_forward_2 input_1_2_1 with
  | Ok out => dim2 input_1_2_1 = 2%nat /\ shape out = shape input_1_2_1
  | Raise e => e = RuntimeError /\ dim2 input_1_2_1 <> 2%nat
  end.
Proof.
  assert (H1 := feed_forward_2_wf).
  split; [exact H1|].
  exact (FeedForward_forward_shapes feed_forward_2 2 2048 input_1_2_1 H1).
Defined.

Lemma EncoderLayer_forward_cases (self : EncoderLayer.t)
      (num_heads d_k d_v d_model : nat) (x : Tensor3) :
  EncoderLayer_wf self num_heads d_k d_v d_model ->
  match EncoderLayer.forward self x with
  | Ok y => dim2 x = d_model /\ shape y = shape x
  | Raise e => e = RuntimeError /\ dim2 x <> d_model
  end.
Proof.
  intros W. destruct (Nat.eq_dec (dim2 x) d_model) as [E|N].
  - destruct (EncoderLayer_forward_Ok self _ _ _ _ x (dim0 x) (dim1 x) W)
      as (a & x1 & x2 & f & x3 & x4 & _ & _ & _ & _ & _ & _ & _ & _ & _
          & Ey & Sy).
    { unfold shape. rewrite E. reflexivity. }
    rewrite Ey. split; [exact E|]. rewrite Sy. unfold shape. rewrite E.
    reflexivity.
  - pose proof (MultiHeadAttention_forward_cases _ _ _ _ _ x x x
                  (wf_attention _ _ _ _ _ W)) as C.
    unfold EncoderLayer.forward.
    destruct (MultiHeadAttention.forward
                (EncoderLayer.multi_head_attention self) x x x) as [a|e].
    + destruct C as ((C & _) & _). contradiction.
    + destruct C as (-> & _). cbn [bind]. auto.
Qed.

(** Every layer that the constructor returns has the parameter sizes of
    its arguments. *)
Lemma EncoderLayer_init_wf (num_heads d_k d_v d_model : nat)
      (g : Generator) (layer : EncoderLayer.t) (g' : Generator) :
  EncoderLayer.init num_heads d_k d_v d_model g = Ok (layer, g') ->
  EncoderLayer_wf layer num_heads d_k d_v d_model.
Proof.
  intros E.
  destruct (MultiHeadAttention_init_Raise num_heads d_k d_v d_model g)
    as (R0 & R1 & R2 & R3).
  destruct (Nat.eq_dec num_heads 0) as [Hh|Hh].
  { rewrite (EncoderLayer_init_Raise _ _ _ _ _ _ (R0 Hh)) in E.
    discriminate E. }
  destruct (Nat.eq_dec (d_model mod num_heads) 0) as [Hm|Hm].
  2:{ rewrite (EncoderLayer_init_Raise _ _ _ _ _ _ (R1 Hh Hm)) in E.
      discriminate E. }
  destruct (Nat.eq_dec d_k (d_model / num_heads)) as [Hk|Hk].
  2:{ rewrite (EncoderLayer_init_Raise _ _ _ _ _ _ (R2 Hh Hm Hk)) in E.
      discriminate E. }
  destruct (Nat.eq_dec d_v (d_model / num_heads)) as [Hv|Hv].
  2:{ rewrite (EncoderLayer_init_Raise _ _ _ _ _ _ (R3 Hh Hm Hk Hv)) in E.
      discriminate E. }
  destruct (EncoderLayer_init_Ok _ _ _ _ g Hh Hm Hk Hv)
    as (layer' & g'' & E' & W).
  rewrite E in E'. injection E' as <- <-. exact W.
Qed.

(** X13.  Every encoder layer that the constructor returns accepts exactly
    the inputs whose last axis has [d_model] entries, whatever their batch
    size and length, and returns a tensor of the input's shape; on any
    other input its forward pass raises a shape error. *)
Theorem EncoderLayer_init_forward_shapes (num_heads d_k d_v d_model : nat)
        (g : Generator) (layer : EncoderLayer.t) (g' : Generator)
        (x : Tensor3) :
  EncoderLayer.init num_heads d_k d_v d_model g = Ok (layer, g') ->
  match EncoderLayer.forward layer x with
  | Ok y => dim2 x = d_model /\ shape y = shape x
  | Raise e => e = RuntimeError /\ dim2 x <> d_model
  end.
Proof.
  intros E.
  apply (EncoderLayer_forward_cases layer num_heads d_k d_v d_model x).
  apply (EncoderLayer_init_wf _ _ _ _ _ _ _ E).
Qed.

Lemma EncoderLayer_init_forward_shapes_witness :
  exists layer g',
    EncoderLayer.init 1 2 2 2 counting = Ok (layer, g') /\
    match EncoderLayer.forward layer input_1_3_2 with
    | Ok y => dim2 input_1_3_2 = 2%nat /\ shape y = shape input_1_3_2
    | Raise e => e = RuntimeError /\ dim2 input_1_3_2 <> 2%nat
    end.
Proof.
  destruct (EncoderLayer_init_Ok 1 2 2 2 counting)
    as (layer & g' & E & _);
    [discriminate | reflexivity | reflexivity | reflexivity |].
  exists layer, g'. split; [exact E|].
  exact (EncoderLayer_init_forward_shapes 1 2 2 2 counting layer g'
           input_1_3_2 E).
Defined.

(** ** The encoder *)

Lemma built_Forall {A : Type} (f : Init A) (P : A -> Prop) :
  (forall g a g1, f g = Ok (a, g1) -> P a) ->
  forall ms g g', built f ms g g' -> Forall P ms.
Proof.
  intros Hf ms g g' Hb. induction Hb as [g|a ms g g1 g2 Ea _ IH].
  - constructor.
  - constructor; [apply (Hf g a g1 Ea) | exact IH].
Qed.

Lemma TransformerEncoder_init_wf
      (num_layers num_heads sequence_length d_model : nat)
      (g : Generator) (enc : TransformerEncoder.t) (g' : Generator) :
  TransformerEncoder.init num_layers num_heads sequence_length d_model g
  = Ok (enc, g') ->
  List.length (TransformerEncoder.layers enc) = num_layers /\
  Forall (fun layer => EncoderLayer_wf layer num_heads sequence_length
                                       sequence_length d_model)
         (TransformerEncoder.layers enc).
Proof.
  intros E.
  destruct (TransformerEncoder_init_built _ _ _ _ _ _ _ E) as (Len & Hb).
  split; [exact Len|].
  apply (built_Forall _ _ (EncoderLayer_init_wf num_heads sequence_length
                             sequence_length d_model) _ _ _ Hb).
Qed.

Lemma TransformerEncoder_loop_cases (num_heads d_k d_v d_model : nat)
      (ls : list EncoderLayer.t) (x : Tensor3) :
  Forall (fun layer => EncoderLayer_wf layer num_heads d_k d_v d_model) ls ->
  match TransformerEncoder.loop ls x with
  | Ok y => shape y = shape x /\ (ls = [] /\ y = x \/ dim2 x = d_model)
  | Raise e => e = RuntimeError /\ ls <> [] /\ dim2 x <> d_model
  end.
Proof.
  intros W. destruct ls as [|layer ls].
  - simpl. auto.
  - destruct (Nat.eq_dec (dim2 x) d_model) as [E|N].
    + destruct (TransformerEncoder_loop_feeds _ _ _ _ (dim0 x) (dim1 x)
                  _ W x) as (y & Ey & Sy & _).
      { unfold shape. rewrite E. reflexivity. }
      rewrite Ey. split; [|right; exact E].
      rewrite Sy. unfold shape. rewrite E. reflexivity.
    + pose proof (EncoderLayer_forward_cases layer _ _ _ _ x
                    (Forall_inv W)) as C.
      simpl. destruct (EncoderLayer.forward layer x) as [y|e].
      * destruct C as (C & _). contradiction.
      * destruct C as (-> & _). split; [reflexivity|].
        split; [discriminate | exact N].
Qed.

(** X14.  An encoder that the constructor returns accepts every input
    whose last axis has [d_model] entries, whatever its batch size and its
    length: the [sequence_length] argument of the constructor does not
    bound the length of the sequences.  The output has the shape of the
    input.  With at least one layer every other input is rejected with a
    shape error; with no layer every input, of any shape, is returned
    unchanged. *)
Theorem TransformerEncoder_init_forward_shapes
        (num_layers num_heads sequence_length d_model : nat)
        (g : Generator) (enc : TransformerEncoder.t) (g' : Generator)
        (x : Tensor3) :
  TransformerEncoder.init num_layers num_heads sequence_length d_model g
  = Ok (enc, g') ->
  match TransformerEncoder.forward enc x with
  | Ok y =>
      shape y = shape x /\
      (num_layers = 0%nat /\ y = x \/ dim2 x = d_model)
  | Raise e =>
      e = RuntimeError /\ (1 <= num_layers)%nat /\ dim2 x <> d_model
  end.
Proof.
  intros E.
  destruct (TransformerEncoder_init_wf _ _ _ _ _ _ _ E) as (Len & W).
  pose proof (TransformerEncoder_loop_cases _ _ _ _ _ x W) as C.
  unfold TransformerEncoder.forward.
  destruct (TransformerEncoder.loop (TransformerEncoder.layers enc) x)
    as [y|e].
  - destruct C as (S & [(Hnil & Hy)|Hd]).
    + split; [exact S|]. left. rewrite Hnil in Len. simpl in Len. auto.
    + auto.
  - destruct C as (He & Hne & Hd). split; [exact He|]. split; [|exact Hd].
    destruct (TransformerEncoder.layers enc); [contradiction|].
    simpl in Len. lia.
Qed.

Lemma TransformerEncoder_init_forward_shapes_witness :
  exists enc g',
    TransformerEncoder.init 2 1 2 2 counting = Ok (enc, g') /\
    match TransformerEncoder.forward enc input_1_3_2 with
    | Ok y =>
        shape y = shape input_1_3_2 /\
        (2%nat = 0%nat /\ y = input_1_3_2 \/ dim2 input_1_3_2 = 2%nat)
    | Raise e =>
        e = RuntimeError /\ (1 <= 2)%nat /\ dim2 input_1_3_2 <> 2%nat
    end.
Proof.
  destruct (TransformerEncoder_init_Ok 2 1 2 2 counting)
    as (enc & g' & E & _);
    [discriminate | reflexivity | reflexivity |].
  exists enc, g'. split; [exact E|].
  exact (TransformerEncoder_init_forward_shapes 2 1 2 2 counting enc g'
           input_1_3_2 E).
Defined.

Lemma TransformerEncoder_loop_app (l1 l2 : list EncoderLayer.t) (x : Tensor3) :
  TransformerEncoder.loop (l1 ++ l2) x
  = bind (TransformerEncoder.loop l1 x) (TransformerEncoder.loop l2).
Proof.
  revert x. induction l1 as [|layer l1 IH]; intros x; simpl.
  - reflexivity.
  - destruct (EncoderLayer.forward layer x) as [y|e]; [apply IH|reflexivity].
Qed.

(** X15.  Stacking composes: an encoder whose layers are those of a first
    encoder followed by those of a second one computes the second encoder
    on the output of the first; when the first raises, the whole raises
    the same exception and the second is not run. *)
Theorem TransformerEncoder_forward_app (l1 l2 : list EncoderLayer.t)
        (x : Tensor3) :
  TransformerEncoder.forward {| TransformerEncoder.layers := l1 ++ l2 |} x
  = match TransformerEncoder.forward
            {| TransformerEncoder.layers := l1 |} x with
    | Ok y =>
        TransformerEncoder.forward {| TransformerEncoder.layers := l2 |} y
    | Raise e => Raise e
    end.
Proof.
  unfold TransformerEncoder.forward. cbn [TransformerEncoder.layers].
  apply TransformerEncoder_loop_app.
Qed.

(** ** The output rows of a new encoder layer *)

Lemma Rsum_minus_const (n : nat) (f : nat -> R) (c : R) :
  Rsum n (fun k => f k - c) = Rsum n f - INR n * c.
Proof.
  induction n as [|n IH].
  - simpl. lra.
  - cbn [Rsum]. rewrite IH, S_INR. lra.
Qed.

(** With scale 1 and shift 0, the entries of every normalised feature
    vector add up to 0. *)
Lemma LayerNorm_rows_sum_zero (m : LayerNorm.t) (x y : Tensor3) :
  (forall k, LayerNorm.weight m k = 1) ->
  (forall k, LayerNorm.bias m k = 0) ->
  LayerNorm.forward m x = Ok y ->
  forall b i, Rsum (dim2 x) (fun k => get3 y b i k) = 0.
Proof.
  intros Hw Hb E b i. unfold LayerNorm.forward in E.
  destruct (dim2 x =? LayerNorm.normalized_shape m)%nat; [|discriminate E].
  injection E as <-. cbn [get3].
  set (v := get3 x b i).
  set (s := sqrt (LayerNorm.var (dim2 x) v + LayerNorm.eps m)).
  rewrite (Rsum_ext (dim2 x) _
             (fun k => (v k - LayerNorm.mean (dim2 x) v) / s)).
  2:{ intros k _. rewrite Hw, Hb. lra. }
  rewrite Rsum_div, Rsum_minus_const. unfold LayerNorm.mean.
  destruct (Nat.eq_dec (dim2 x) 0) as [E0|N0].
  - rewrite E0. simpl. unfold Rdiv. ring.
  - assert (Hn : INR (dim2 x) <> 0) by (apply not_0_INR; exact N0).
    replace (Rsum (dim2 x) v - INR (dim2 x) * (Rsum (dim2 x) v / INR (dim2 x)))
      with 0 by (field; exact Hn).
    unfold Rdiv. ring.
Qed.

(** The second normalisation of a layer that the constructor returns. *)
Lemma EncoderLayer_init_norm_2 (num_heads d_k d_v d_model : nat)
      (g : Generator) (layer : EncoderLayer.t) (g' : Generator) :
  EncoderLayer.init num_heads d_k d_v d_model g = Ok (layer, g') ->
  LayerNorm.normalized_shape (EncoderLayer.layer_normalization_2 layer)
  = d_model /\
  (forall k, LayerNorm.weight (EncoderLayer.layer_normalization_2 layer) k
             = 1) /\
  (forall k, LayerNorm.bias (EncoderLayer.layer_normalization_2 layer) k = 0).
Proof.
  unfold EncoderLayer.init, bindI, LayerNorm.init, ret. intros E.
  destruct (MultiHeadAttention.init num_heads d_k d_v d_model g)
    as [[m g1]|e]; [|discriminate E].
  destruct (PositionWiseFeedForwardNetwork.init d_model (Some 2048%nat) g1)
    as [[f g2]|e]; [|discriminate E].
  injection E as <- <-. cbn. auto.
Qed.

(** X16.  Every row of the output of an encoder layer that has just been
    constructed sums to zero: the last step is a normalisation whose scale
    is 1 and whose shift is 0, so the [d_model] entries of each output
    vector are centred, for every input the layer accepts. *)
Theorem EncoderLayer_init_forward_centred (num_heads d_k d_v d_model : nat)
        (g : Generator) (layer : EncoderLayer.t) (g' : Generator)
        (x y : Tensor3) :
  EncoderLayer.init num_heads d_k d_v d_model g = Ok (layer, g') ->
  EncoderLayer.forward layer x = Ok y ->
  forall b i, Rsum d_model (fun k => get3 y b i k) = 0.
Proof.
  intros Ei Ef b i.
  destruct (EncoderLayer_init_norm_2 _ _ _ _ _ _ _ Ei) as (Hn & Hw & Hb).
  unfold EncoderLayer.forward in Ef.
  apply bind_Ok in Ef. destruct Ef as (a & _ & Ef).
  apply bind_Ok in Ef. destruct Ef as (x1 & _ & Ef).
  apply bind_Ok in Ef. destruct Ef as (x2 & _ & Ef).
  apply bind_Ok in Ef. destruct Ef as (f & _ & Ef).
  apply bind_Ok in Ef. destruct Ef as (x3 & _ & Ef).
  apply bind_Ok in Ef. destruct Ef as (x4 & E4 & Ef).
  injection Ef as <-.
  assert (Hd : dim2 x3 = d_model).
  { unfold LayerNorm.forward in E4. rewrite Hn in E4.
    destruct (Nat.eqb_spec (dim2 x3) d_model) as [E|_];
      [exact E | discriminate E4]. }
  rewrite <- Hd.
  apply (LayerNorm_rows_sum_zero _ x3 x4 Hw Hb E4 b i).
Qed.

Lemma EncoderLayer_init_forward_centred_witness :
  exists layer g' y,
    EncoderLayer.init 1 2 2 2 counting = Ok (layer, g') /\
    EncoderLayer.forward layer input_1_3_2 = Ok y /\
    forall b i, Rsum 2 (fun k => get3 y b i k) = 0.
Proof.
  destruct (EncoderLayer_init_Ok 1 2 2 2 counting)
    as (layer & g' & E & W);
    [discriminate | reflexivity | reflexivity | reflexivity |].
  destruct (EncoderLayer_forward_Ok layer 1 2 2 2 input_1_3_2 1 3 W eq_refl)
    as (a & x1 & x2 & f & x3 & y & _ & _ & _ & _ & _ & _ & _ & _ & _
        & Ey & _).
  exists layer, g', y. split; [exact E|]. split; [exact Ey|].
  exact (EncoderLayer_init_forward_centred 1 2 2 2 counting layer g'
           input_1_3_2 y E Ey).
Defined.

(** ** The top-level model cannot be constructed *)

Lemma Embedding_init_total (n d : nat) (g : Generator) :
  exists m g', Embedding.init n d g = Ok (m, g').
Proof. unfold Embedding.init, draw. eexists. eexists. reflexivity. Qed.

(** X17.  The constructor of [Transformer] never returns a model.  When
    the positional encoding and the encoder can be built (a dimension that
    is even and not zero; no layer, or [d_model] divisible by [num_heads]
    and [sequence_length = d_model // num_heads]) it raises the NameError
    of [TransformerDecoder]; otherwise it raises the exception of the first
    of the two that fails.  [d_model] is 512 and [num_layers] is 6 when
    they are left out. *)
Theorem Transformer_init_raises
        (tokens_dictionary_size max_sequence_length num_heads
         sequence_length : nat) (d_model num_layers : option nat)
        (g : Generator) :
  let D := match d_model with Some n => n | None => 512%nat end in
  let N := match num_layers with Some n => n | None => 6%nat end in
  match Transformer.init tokens_dictionary_size max_sequence_length
                         num_heads sequence_length d_model num_layers g with
  | inr _ => False
  | inl (Transformer.NameError name) =>
      name = "TransformerDecoder"%string /\
      D <> 0%nat /\ (Nat.even D = true \/ D = 1%nat) /\
      (N = 0%nat \/
       (num_heads <> 0%nat /\ (D mod num_heads = 0)%nat /\
        sequence_length = (D / num_heads)%nat))
  | inl (Transformer.Propagated e) =>
      (D = 0%nat /\ e = ZeroDivisionError) \/
      (Nat.odd D = true /\ (3 <= D)%nat /\ e = RuntimeError) \/
      (D <> 0%nat /\ (Nat.even D = true \/ D = 1%nat) /\ (1 <= N)%nat /\
       ((num_heads = 0%nat /\ e = ZeroDivisionError) \/
        (num_heads <> 0%nat /\ (D mod num_heads)%nat <> 0%nat /\
         e = AssertionError "d_model must be divisible by num_heads") \/
        (num_heads <> 0%nat /\ (D mod num_heads = 0)%nat /\
         sequence_length <> (D / num_heads)%nat /\
         e = AssertionError "d_k must be equal to d_model // num_heads")))
  end.
Proof.
  intros D N. unfold Transformer.init.
  change (match d_model with
          | Some n => n
          | None => Transformer.d_model_default
          end) with D.
  change (match num_layers with
          | Some n => n
          | None => Transformer.num_layers_default
          end) with N.
  destruct (Embedding_init_total tokens_dictionary_size D g)
    as (emb & g1 & Ee).
  rewrite Ee.
  pose proof (PositionalEncoding_init_cases max_sequence_length D) as Cp.
  destruct (PositionalEncoding.init max_sequence_length D) as [pe|e].
  2:{ destruct Cp as [C|C]; [left | right; left]; exact C. }
  destruct Cp as (Hnz & Hev & _).
  destruct N as [|n].
  { cbn. auto. }
  destruct (MultiHeadAttention_init_Raise num_heads sequence_length
              sequence_length D g1) as (R0 & R1 & R2 & _).
  destruct (Nat.eq_dec num_heads 0) as [Hh|Hh].
  { rewrite (TransformerEncoder_init_Raise n _ _ _ _ _ (R0 Hh)).
    right; right. repeat split; auto. lia. }
  destruct (Nat.eq_dec (D mod num_heads) 0) as [Hm|Hm].
  2:{ rewrite (TransformerEncoder_init_Raise n _ _ _ _ _ (R1 Hh Hm)).
      right; right. repeat split; auto. lia. }
  destruct (Nat.eq_dec sequence_length (D / num_heads)) as [Hs|Hs].
  2:{ rewrite (TransformerEncoder_init_Raise n _ _ _ _ _ (R2 Hh Hm Hs)).
      right; right. repeat split; auto 6. lia. }
  destruct (TransformerEncoder_init_Ok (S n) _ _ _ g1 Hh Hm Hs)
    as (enc & g2 & E & _).
  rewrite E. split; [reflexivity|]. split; [exact Hnz|].
  split; [exact Hev|]. right. auto.
Qed.

(** ** Construction of an encoder layer *)

(** X18.  [EncoderLayer(num_heads, d_k, d_v, d_model)] succeeds exactly
    when [MultiHeadAttention] accepts the same arguments ([d_model]
    divisible by [num_heads], [d_k] and [d_v] equal to
    [d_model // num_heads]) and otherwise raises its configuration error;
    the layer it returns has [num_heads] heads, two normalisations over
    [d_model] features and a feed-forward network of hidden size 2048,
    whatever [d_model] is. *)
Theorem EncoderLayer_init_configuration (num_heads d_k d_v d_model : nat)
        (g : Generator) :
  match EncoderLayer.init num_heads d_k d_v d_model g with
  | Ok (layer, _) =>
      num_heads <> 0%nat /\ (d_model mod num_heads = 0)%nat /\
      d_k = (d_model / num_heads)%nat /\ d_v = (d_model / num_heads)%nat /\
      EncoderLayer_wf layer num_heads d_k d_v d_model
  | Raise e =>
      configuration_error e = true /\
      MultiHeadAttention.init num_heads d_k d_v d_model g = Raise e /\
      (num_heads = 0%nat \/ (d_model mod num_heads)%nat <> 0%nat \/
       d_k <> (d_model / num_heads)%nat \/
       d_v <> (d_model / num_heads)%nat)
  end.
Proof.
  destruct (MultiHeadAttention_init_Raise num_heads d_k d_v d_model g)
    as (R0 & R1 & R2 & R3).
  destruct (Nat.eq_dec num_heads 0) as [Hh|Hh].
  { rewrite (EncoderLayer_init_Raise _ _ _ _ _ _ (R0 Hh)).
    split; [reflexivity|]. split; [exact (R0 Hh) | auto]. }
  destruct (Nat.eq_dec (d_model mod num_heads) 0) as [Hm|Hm].
  2:{ rewrite (EncoderLayer_init_Raise _ _ _ _ _ _ (R1 Hh Hm)).
      split; [reflexivity|]. split; [exact (R1 Hh Hm) | auto]. }
  destruct (Nat.eq_dec d_k (d_model / num_heads)) as [Hk|Hk].
  2:{ rewrite (EncoderLayer_init_Raise _ _ _ _ _ _ (R2 Hh Hm Hk)).
      split; [reflexivity|]. split; [exact (R2 Hh Hm Hk) | auto]. }
  destruct (Nat.eq_dec d_v (d_model / num_heads)) as [Hv|Hv].
  2:{ rewrite (EncoderLayer_init_Raise _ _ _ _ _ _ (R3 Hh Hm Hk Hv)).
      split; [reflexivity|]. split; [exact (R3 Hh Hm Hk Hv) | auto 6]. }
  destruct (EncoderLayer_init_Ok _ _ _ _ g Hh Hm Hk Hv)
    as (layer & g' & E & W).
  rewrite E. auto 6.
Qed.

(** ** Attention treats the batch elements separately *)

Lemma probabilities_get (q k w : Tensor3) :
  ScaledDotProductAttention.queries_keys_similarity_probabilities q k = Ok w ->
  forall b i j,
    get3 w b i j =
    exp (Rsum (dim2 q) (fun c => get3 q b i c * get3 k b j c)
         / sqrt (INR (dim2 q))) /
    Rsum (dim1 q)
         (fun i' => exp (Rsum (dim2 q) (fun c => get3 q b i' c * get3 k b j c)
                         / sqrt (INR (dim2 q)))).
Proof.
  unfold ScaledDotProductAttention.queries_keys_similarity_probabilities,
    torch.bmm.
  cbn [dim0 dim1 dim2 torch.transpose_1_2].
  destruct ((dim0 q =? dim0 k)%nat && (dim2 q =? dim2 k)%nat)%bool;
    [|discriminate].
  cbn [bind torch.softmax]. intros E. injection E as <-. reflexivity.
Qed.

(** X19.  The result of attention for a batch element is a function of
    the queries, keys and values of that element alone: two calls whose
    inputs agree on one batch element each (same lengths and feature
    dimensions, equal entries) give equal results for those elements,
    whatever the other batch elements hold. *)
Theorem ScaledDotProductAttention_forward_batch
        (attention : ScaledDotProductAttention.t)
        (q k v o q' k' v' o' : Tensor3) (b b' : nat) :
  ScaledDotProductAttention.forward attention q k v = Ok o ->
  ScaledDotProductAttention.forward attention q' k' v' = Ok o' ->
  dim1 q = dim1 q' -> dim2 q = dim2 q' -> dim1 k = dim1 k' ->
  (forall i c, (i < dim1 q)%nat -> (c < dim2 q)%nat ->
               get3 q b i c = get3 q' b' i c) ->
  (forall j c, (j < dim1 k)%nat -> (c < dim2 q)%nat ->
               get3 k b j c = get3 k' b' j c) ->
  (forall j c, (j < dim1 k)%nat -> get3 v b j c = get3 v' b' j c) ->
  forall i c, (i < dim1 q)%nat -> get3 o b i c = get3 o' b' i c.
Proof.
  intros E E' Hq1 Hq2 Hk1 Hq Hk Hv i c Hi.
  destruct (ScaledDotProductAttention_forward_get _ _ _ _ _ E)
    as (w & Ew & _ & Go).
  destruct (ScaledDotProductAttention_forward_get _ _ _ _ _ E')
    as (w' & Ew' & _ & Go').
  rewrite Go, Go', <- Hk1.
  assert (Hs : forall i0 j, (i0 < dim1 q)%nat -> (j < dim1 k)%nat ->
            Rsum (dim2 q) (fun c0 => get3 q b i0 c0 * get3 k b j c0)
            = Rsum (dim2 q) (fun c0 => get3 q' b' i0 c0 * get3 k' b' j c0)).
  { intros i0 j Hi0 Hj. apply Rsum_ext. intros c0 Hc0.
    rewrite (Hq i0 c0 Hi0 Hc0), (Hk j c0 Hj Hc0). reflexivity. }
  apply Rsum_ext. intros j Hj.
  rewrite (Hv j c Hj).
  rewrite (probabilities_get _ _ _ Ew b i j),
          (probabilities_get _ _ _ Ew' b' i j).
  rewrite <- Hq1, <- Hq2, (Hs i j Hi Hj).
  f_equal. f_equal.
  apply Rsum_ext. intros i0 Hi0. rewrite (Hs i0 j Hi0 Hj). reflexivity.
Qed.

Lemma ScaledDotProductAttention_forward_batch_witness :
  exists o o',
    ScaledDotProductAttention.forward ScaledDotProductAttention.Build
      input_1_2_1 input_1_2_1 input_1_2_1 = Ok o /\
    ScaledDotProductAttention.forward ScaledDotProductAttention.Build
      input_2_2_1 input_2_2_1 input_2_2_1 = Ok o' /\
    dim1 input_1_2_1 = dim1 input_2_2_1 /\
    dim2 input_1_2_1 = dim2 input_2_2_1 /\
    (forall i c, (i < dim1 input_1_2_1)%nat -> (c < dim2 input_1_2_1)%nat ->
                 get3 input_1_2_1 0 i c = get3 input_2_2_1 1 i c) /\
    (forall i c, (i < dim1 input_1_2_1)%nat -> get3 o 0 i c = get3 o' 1 i c).
Proof.
  assert (H1 : dim1 input_1_2_1 = dim1 input_2_2_1) by reflexivity.
  assert (H2 : dim2 input_1_2_1 = dim2 input_2_2_1) by reflexivity.
  assert (H3 : forall i c, (i < dim1 input_1_2_1)%nat ->
                 (c < dim2 input_1_2_1)%nat ->
                 get3 input_1_2_1 0 i c = get3 input_2_2_1 1 i c).
  { intros i c _ _. reflexivity. }
  assert (H4 : forall j c, (j < dim1 input_1_2_1)%nat ->
                 get3 input_1_2_1 0 j c = get3 input_2_2_1 1 j c).
  { intros j c _. reflexivity. }
  eexists. eexists. split; [reflexivity|]. split; [reflexivity|].
  split; [exact H1|]. split; [exact H2|]. split; [exact H3|].
  exact (ScaledDotProductAttention_forward_batch
           ScaledDotProductAttention.Build
           input_1_2_1 input_1_2_1 input_1_2_1 _
           input_2_2_1 input_2_2_1 input_2_2_1 _ 0 1
           eq_refl eq_refl H1 H2 H1 H3 H3 H4).
Defined.
